(** * Shapes-py (a43.py): range configuration, random sampling and SVG rendering

    A shallow embedding of the classes of [a43.py] that decide how shapes are
    configured ([PyArtConfig]), sampled ([RandomShape]), rendered
    ([CircleShape], [RectangleShape], [EllipseShape]) and tabulated
    ([TableGen]), followed by the properties proved about them.

    Conventions of the embedding:
    - a Python [int] is a [Z];
    - a Python method that mutates [self] or may raise is a computation in the
      state-and-exception monad [M]; the state survives a raised exception,
      as a mutated object does in Python;
    - the process-wide random source is an explicit [random.state];
    - a real number drawn for the opacity is an exact rational ([Q]); the
      binary rounding error of the float arithmetic is not modelled;
    - a float rounded by [round(_, 1)] is stored as its number of tenths
      ([float1]). *)

From Stdlib Require Import ZArith QArith String Ascii List Bool Lia Lqa.
From Stdlib Require Import DecimalString DecimalZ DecimalPos.
Import ListNotations.

Local Open Scope string_scope.
Local Open Scope Z_scope.

(** ** Exceptions and the state-and-exception monad *)

Inductive exn : Type :=
| ValueError
| IndexError
| TypeError
| KeyError.

Inductive result (A : Type) : Type :=
| Ok (a : A)
| Raise (e : exn).

Arguments Ok {A} a.
Arguments Raise {A} e.

Definition M (S A : Type) : Type := S -> result A * S.

Definition ret {S A : Type} (a : A) : M S A := fun s => (Ok a, s).

Definition raise {S A : Type} (e : exn) : M S A := fun s => (Raise e, s).

Definition bind {S A B : Type} (m : M S A) (k : A -> M S B) : M S B :=
  fun s =>
    match m s with
    | (Ok a, s') => k a s'
    | (Raise e, s') => (Raise e, s')
    end.

Definition modify {S : Type} (f : S -> S) : M S unit := fun s => (Ok tt, f s).

Definition lift {S A : Type} (r : result A) : M S A := fun s => (r, s).

Notation "x <- m ;; k" := (bind m (fun x => k))
  (at level 61, m at next level, right associativity).
Notation "m ;;; k" := (bind m (fun _ => k))
  (at level 61, right associativity).

(** [for x in xs: body(x)] *)
Fixpoint for_each {S A : Type} (xs : list A) (body : A -> M S unit) : M S unit :=
  match xs with
  | [] => ret tt
  | x :: rest => body x ;;; for_each rest body
  end.

(** The object state left by a computation, whether it returned or raised. *)
Definition state_after {S A : Type} (m : M S A) (s : S) : S := snd (m s).

(** What a computation returned or raised. *)
Definition outcome {S A : Type} (m : M S A) (s : S) : result A := fst (m s).

(** ** Python built-ins used by the program *)

(** [l[i]]: a negative index counts from the end; anything outside
    [-len(l) .. len(l)-1] raises IndexError. *)
Definition getitem {A : Type} (l : list A) (i : Z) : result A :=
  let n := Z.of_nat (length l) in
  let j := if i <? 0 then i + n else i in
  if (0 <=? j) && (j <? n) then
    match nth_error l (Z.to_nat j) with
    | Some a => Ok a
    | None => Raise IndexError
    end
  else Raise IndexError.

(** [z in l] for a list of ints. *)
Definition int_in (z : Z) (l : list Z) : bool := existsb (Z.eqb z) l.

(** A float with one decimal place, stored as its number of tenths:
    [t] stands for [t / 10]. *)
Definition float1 : Type := Z.


(** Rounding of the fraction [n / d] ([0 < d]) to the nearest integer, ties
    to the even one: Python's [round] rounds half to even. *)
Definition round_half_even (n d : Z) : Z :=
  let t := n / d in
  match (2 * (n mod d)) ?= d with
  | Lt => t
  | Gt => t + 1
  | Eq => if Z.even t then t else t + 1
  end.

(** [round(x, 1)], as a number of tenths. *)
Definition round_1 (x : Q) : float1 :=
  round_half_even (10 * Qnum x) (Z.pos (Qden x)).

(** ** Strings *)

Definition newline : ascii := "010"%char.
Definition space : ascii := " "%char.
Definition dquote : string := String "034"%char EmptyString.

(** [sep.join(parts)] *)
Fixpoint join (sep : string) (parts : list string) : string :=
  match parts with
  | [] => EmptyString
  | [p] => p
  | p :: rest => p ++ sep ++ join sep rest
  end.

(** [s.replace(old, new)] for one-character [old] and [new]. *)
Fixpoint replace (old new : ascii) (s : string) : string :=
  match s with
  | EmptyString => EmptyString
  | String c r =>
      String (if Ascii.eqb c old then new else c) (replace old new r)
  end.

(** [s.split(sep)] for a one-character separator: every occurrence of [sep]
    ends a field, so the result is never empty and adjacent separators give
    empty fields. *)
Fixpoint split (sep : ascii) (s : string) : list string :=
  match s with
  | EmptyString => [EmptyString]
  | String c r =>
      if Ascii.eqb c sep then EmptyString :: split sep r
      else
        match split sep r with
        | h :: t => String c h :: t
        | [] => [String c EmptyString]
        end
  end.

(** ["   " * n]: a repetition count below one gives the empty string. *)
Fixpoint repeat_string (s : string) (n : nat) : string :=
  match n with
  | O => EmptyString
  | S k => s ++ repeat_string s k
  end.

Definition str_mul (s : string) (n : Z) : string := repeat_string s (Z.to_nat n).

(** [str(z)] for an int: decimal digits, a leading minus sign when negative. *)
Definition str_int (z : Z) : string := NilZero.string_of_int (Z.to_int z).

(** [int(s)] on a string: an optional sign followed by at least one decimal
    digit; anything else raises ValueError. (Surrounding white space and
    digit-group underscores, which [int] also accepts, never occur in the
    strings the program parses and are rejected here.) *)
Definition parse_int (s : string) : result Z :=
  let body :=
    match s with
    | EmptyString => None
    | String c r =>
        if (c =? "+")%char then
          match r with
          | EmptyString => None
          | String c' _ =>
              if (c' =? "-")%char then None else NilZero.int_of_string r
          end
        else NilZero.int_of_string s
    end in
  match body with
  | Some d => Ok (Z.of_int d)
  | None => Raise ValueError
  end.

(** [str(f)] for a one-decimal float: sign, integer part, point, one digit
    (the shortest representation Python prints for such a value of
    magnitude below 1e16). *)
Definition str_float (t : float1) : string :=
  let a := Z.abs t in
  (if t <? 0 then "-" else EmptyString)
    ++ str_int (a / 10) ++ "." ++ str_int (a mod 10).

(** [float(s)] restricted to one-decimal literals: an optional minus sign,
    digits, a point and exactly one digit. Other spellings of a float are
    rejected with ValueError; the program only parses what [str_float]
    printed. *)
Definition parse_unsigned_float (s : string) : option float1 :=
  match split "."%char s with
  | [ip; fp] =>
      match NilZero.uint_of_string ip, NilZero.uint_of_string fp with
      | Some a, Some b =>
          if (String.length fp =? 1)%nat
          then Some (10 * Z.of_uint a + Z.of_uint b)
          else None
      | _, _ => None
      end
  | _ => None
  end.

Definition parse_float (s : string) : result float1 :=
  let body :=
    match s with
    | EmptyString => None
    | String c r =>
        if (c =? "-")%char then option_map Z.opp (parse_unsigned_float r)
        else parse_unsigned_float s
    end in
  match body with
  | Some t => Ok t
  | None => Raise ValueError
  end.

(** ** The random source

    Every call of the [random] module consumes the next raw draw of an
    explicit stream. [_randbelow n] reduces the draw modulo [n], so every
    value below [n] can come out and nothing else can; [random()] yields a
    multiple of 2^-53 in the half-open unit interval. *)
Module random.

Record state : Type := { raw : nat -> Z; pos : nat }.

(** The source after one draw was consumed. *)
Definition advance (s : state) : state :=
  {| raw := raw s; pos := S (pos s) |}.

Definition next : M state Z := fun s => (Ok (raw s (pos s)), advance s).

Definition _randbelow (n : Z) : M state Z :=
  r <- next ;; ret (r mod n).

(** [randint(a, b)] is [randrange(a, b + 1)]: an empty range raises
    ValueError before any draw is made. *)
Definition randint (a b : Z) : M state Z :=
  let width := b + 1 - a in
  if 0 <? width then k <- _randbelow width ;; ret (a + k)
  else raise ValueError.

(** [choice(seq)]: IndexError on an empty sequence. *)
Definition choice {A : Type} (seq : list A) : M state A :=
  match seq with
  | [] => raise IndexError
  | _ => i <- _randbelow (Z.of_nat (length seq)) ;; lift (getitem seq i)
  end.

Definition random : M state Q :=
  r <- next ;; ret ((r mod 2 ^ 53) # 2 ^ 53).

(** [uniform(a, b)] is [a + (b - a) * random()]. *)
Definition uniform (a b : Q) : M state Q :=
  u <- random ;; ret (a + (b - a) * u)%Q.

End random.

(** ** Values carried by a shape tuple *)

Inductive pyval : Type :=
| PInt (z : Z)
| PFloat (f : float1).

(** [str(v)], as an f-string field prints it. *)
Definition str (v : pyval) : string :=
  match v with
  | PInt z => str_int z
  | PFloat f => str_float f
  end.

(** The eleven fields shared by the three shape tuples, in declaration
    order. *)
Module ShapeFields.
Record t : Type := {
x : pyval;
y : pyval;
rad : pyval;
width : pyval;
height : pyval;
rx : pyval;
ry : pyval;
red : pyval;
green : pyval;
blue : pyval;
op : pyval
}.
End ShapeFields.

Definition fields : Type := ShapeFields.t.

(** [Cls( *data )]: the items of [data] bound to the fields by position;
    any other number of items than eleven raises TypeError. *)
Definition from_positional (data : list pyval) : result fields :=
  match data with
  | [a1; a2; a3; a4; a5; a6; a7; a8; a9; a10; a11] =>
      Ok {| ShapeFields.x := a1; ShapeFields.y := a2; ShapeFields.rad := a3;
            ShapeFields.width := a4; ShapeFields.height := a5;
            ShapeFields.rx := a6; ShapeFields.ry := a7;
            ShapeFields.red := a8; ShapeFields.green := a9;
            ShapeFields.blue := a10; ShapeFields.op := a11 |}
  | _ => Raise TypeError
  end.

(** The second half of every fragment: fill colour and opacity. *)
Definition fill_attrs (self : fields) : string :=
  "fill=" ++ dquote ++ "rgb(" ++ str (self.(ShapeFields.red)) ++ ", "
    ++ str (self.(ShapeFields.green))
    ++ ", " ++ str (self.(ShapeFields.blue)) ++ ")" ++ dquote
    ++ " fill-opacity=" ++ dquote ++ str (self.(ShapeFields.op)) ++ dquote.

Module CircleShape.
Definition draw (self : fields) (indent_level : Z) : string :=
  let ts := str_mul "   " indent_level in
  let line1 :=
    "<circle cx=" ++ dquote ++ str (self.(ShapeFields.x)) ++ dquote
      ++ " cy=" ++ dquote ++ str (self.(ShapeFields.y)) ++ dquote
      ++ " r=" ++ dquote ++ str (self.(ShapeFields.rad)) ++ dquote ++ " " in
  let line2 := fill_attrs self ++ "></circle>" in
  ts ++ (line1 ++ line2).
End CircleShape.

Module RectangleShape.
Definition draw (self : fields) (indent_level : Z) : string :=
  let ts := str_mul "   " indent_level in
  let line1 :=
    "<rect x=" ++ dquote ++ str (self.(ShapeFields.x)) ++ dquote
      ++ " y=" ++ dquote ++ str (self.(ShapeFields.y)) ++ dquote
      ++ " width=" ++ dquote ++ str (self.(ShapeFields.width)) ++ dquote
      ++ " height=" ++ dquote ++ str (self.(ShapeFields.height)) ++ dquote
      ++ " " in
  let line2 := fill_attrs self ++ "></rect>" in
  ts ++ (line1 ++ line2).
End RectangleShape.

Module EllipseShape.
Definition draw (self : fields) (indent_level : Z) : string :=
  let ts := str_mul "   " indent_level in
  let line1 :=
    "<ellipse cx=" ++ dquote ++ str (self.(ShapeFields.x)) ++ dquote
      ++ " cy=" ++ dquote ++ str (self.(ShapeFields.y)) ++ dquote
      ++ " rx=" ++ dquote ++ str (self.(ShapeFields.rx)) ++ dquote
      ++ " ry=" ++ dquote ++ str (self.(ShapeFields.ry)) ++ dquote ++ " " in
  let line2 := fill_attrs self ++ "></ellipse>" in
  ts ++ (line1 ++ line2).
End EllipseShape.

(** A shape tuple of one of the three classes. *)
Inductive Shape : Type :=
| Circle (f : fields)
| Rectangle (f : fields)
| Ellipse (f : fields).

(** [shape.draw(indent_level)], dispatched on the class. *)
Definition draw (s : Shape) (indent_level : Z) : string :=
  match s with
  | Circle f => CircleShape.draw f indent_level
  | Rectangle f => RectangleShape.draw f indent_level
  | Ellipse f => EllipseShape.draw f indent_level
  end.

(** The default [indent_level] of the three [draw] methods. *)
Definition draw_default_indent : Z := 2.

(** ** SvgCanvas: only the attributes the configuration reads *)
Module SvgCanvas.
Record t : Type := { width : Z; height : Z; bg : string }.
End SvgCanvas.

(** ** Dictionaries

    A dict is the list of its items in insertion order, which is the order
    [items()] iterates in. *)
Definition dict (K V : Type) : Type := list (K * V).

(** [d.get(k)]: the value stored under [k], if any. *)
Fixpoint dict_get {K V : Type} (eqb : K -> K -> bool) (d : dict K V) (k : K)
  : option V :=
  match d with
  | [] => None
  | (k', v) :: rest => if eqb k' k then Some v else dict_get eqb rest k
  end.

Definition pair_eqb (a b : string * string) : bool :=
  String.eqb (fst a) (fst b) && String.eqb (snd a) (snd b).

(** ** PyArtConfig *)
Module PyArtConfig.

Record t : Type := {
  shape_type_range : list Z;
  x_range : Z * Z;
  y_range : Z * Z;
  radius_range : Z * Z;
  rxy_range : Z * Z;
  w_h_range : Z * Z;
  r_range : Z * Z;
  g_range : Z * Z;
  b_range : Z * Z;
  opacity_range : Q * Q
}.

Definition __init__ (c : SvgCanvas.t) (shape_type_range : list Z)
    (radius_range rxy_range w_h_range : Z * Z)
    (color_r_range color_g_range color_b_range : Z * Z)
    (opacity_range : Q * Q) : t :=
  {| shape_type_range := shape_type_range;
     x_range := (0, SvgCanvas.width c);
     y_range := (0, SvgCanvas.height c);
     radius_range := radius_range;
     rxy_range := rxy_range;
     w_h_range := w_h_range;
     r_range := color_r_range;
     g_range := color_g_range;
     b_range := color_b_range;
     opacity_range := opacity_range |}.

(** [PyArtConfig(c)]: every keyword argument at the default of the
    signature. *)
Definition default (c : SvgCanvas.t) : t :=
  __init__ c [0; 1; 2] (0, 100) (10, 30) (10, 100)
           (0, 255) (0, 255) (0, 255) (0%Q, 1%Q).

(** Attribute assignment, one function per attribute the methods write. *)
Definition set_shape_type_range (v : list Z) (self : t) : t :=
  {| shape_type_range := v; x_range := x_range self;
     y_range := y_range self; radius_range := radius_range self;
     rxy_range := rxy_range self; w_h_range := w_h_range self;
     r_range := r_range self; g_range := g_range self;
     b_range := b_range self; opacity_range := opacity_range self |}.

Definition set_r_range (v : Z * Z) (self : t) : t :=
  {| shape_type_range := shape_type_range self; x_range := x_range self;
     y_range := y_range self; radius_range := radius_range self;
     rxy_range := rxy_range self; w_h_range := w_h_range self;
     r_range := v; g_range := g_range self;
     b_range := b_range self; opacity_range := opacity_range self |}.

Definition set_g_range (v : Z * Z) (self : t) : t :=
  {| shape_type_range := shape_type_range self; x_range := x_range self;
     y_range := y_range self; radius_range := radius_range self;
     rxy_range := rxy_range self; w_h_range := w_h_range self;
     r_range := r_range self; g_range := v;
     b_range := b_range self; opacity_range := opacity_range self |}.

Definition set_b_range (v : Z * Z) (self : t) : t :=
  {| shape_type_range := shape_type_range self; x_range := x_range self;
     y_range := y_range self; radius_range := radius_range self;
     rxy_range := rxy_range self; w_h_range := w_h_range self;
     r_range := r_range self; g_range := g_range self;
     b_range := v; opacity_range := opacity_range self |}.

Definition set_opacity_range (v : Q * Q) (self : t) : t :=
  {| shape_type_range := shape_type_range self; x_range := x_range self;
     y_range := y_range self; radius_range := radius_range self;
     rxy_range := rxy_range self; w_h_range := w_h_range self;
     r_range := r_range self; g_range := g_range self;
     b_range := b_range self; opacity_range := v |}.

Definition set_radius_range (v : Z * Z) (self : t) : t :=
  {| shape_type_range := shape_type_range self; x_range := x_range self;
     y_range := y_range self; radius_range := v;
     rxy_range := rxy_range self; w_h_range := w_h_range self;
     r_range := r_range self; g_range := g_range self;
     b_range := b_range self; opacity_range := opacity_range self |}.

Definition set_rxy_range (v : Z * Z) (self : t) : t :=
  {| shape_type_range := shape_type_range self; x_range := x_range self;
     y_range := y_range self; radius_range := radius_range self;
     rxy_range := v; w_h_range := w_h_range self;
     r_range := r_range self; g_range := g_range self;
     b_range := b_range self; opacity_range := opacity_range self |}.

Definition set_w_h_range (v : Z * Z) (self : t) : t :=
  {| shape_type_range := shape_type_range self; x_range := x_range self;
     y_range := y_range self; radius_range := radius_range self;
     rxy_range := rxy_range self; w_h_range := v;
     r_range := r_range self; g_range := g_range self;
     b_range := b_range self; opacity_range := opacity_range self |}.

(** [setattr(self, name, value)] for an int range: the attribute called
    [name] is overwritten. A name that is none of the int-range attributes
    would create a fresh attribute and leaves the ones modelled here
    alone. *)
Definition setattr (name : string) (v : Z * Z) (self : t) : t :=
  {| shape_type_range := shape_type_range self;
     x_range := if name =? "x_range" then v else x_range self;
     y_range := if name =? "y_range" then v else y_range self;
     radius_range := if name =? "radius_range" then v else radius_range self;
     rxy_range := if name =? "rxy_range" then v else rxy_range self;
     w_h_range := if name =? "w_h_range" then v else w_h_range self;
     r_range := if name =? "r_range" then v else r_range self;
     g_range := if name =? "g_range" then v else g_range self;
     b_range := if name =? "b_range" then v else b_range self;
     opacity_range := opacity_range self |}%string.

Definition shapes (shape amt : Z) : M t unit :=
  if int_in shape [0; 1; 2] then
    if amt =? 1 then modify (set_shape_type_range [shape])
    else if amt =? 0 then
      let shape_ranges := [(0, [1; 2]); (1, [0; 2]); (2, [0; 1])] in
      modify (set_shape_type_range
                (match dict_get Z.eqb shape_ranges shape with
                 | Some l => l
                 | None => []
                 end))
    else ret tt
  else ret tt.

Definition size_ranges : dict (string * string) (string * (Z * Z)) :=
  [ (("c", "s"), ("radius_range", (0, 33)));
    (("r", "s"), ("w_h_range", (10, 40)));
    (("e", "s"), ("rxy_range", (10, 17)));
    (("c", "m"), ("radius_range", (33, 66)));
    (("r", "m"), ("w_h_range", (40, 70)));
    (("e", "m"), ("rxy_range", (17, 24)));
    (("c", "l"), ("radius_range", (66, 100)));
    (("r", "l"), ("w_h_range", (70, 100)));
    (("e", "l"), ("rxy_range", (24, 30))) ].

(** The guard [if attr_name and value] holds for a non-empty name; a
    two-item tuple is always true. *)
Definition size (shape_sizes : dict string string) : M t unit :=
  for_each shape_sizes (fun item =>
    match dict_get pair_eqb size_ranges (fst item, snd item) with
    | Some (attr_name, value) =>
        if (0 <? String.length attr_name)%nat
        then modify (setattr attr_name value)
        else ret tt
    | None => ret tt
    end).

Definition color_ranges : list (Z * Z) :=
  [(0, 0); (0, 85); (85, 170); (170, 255); (255, 255)].

Definition color (color_amounts : dict string Z) : M t unit :=
  for_each color_amounts (fun item =>
    let color := fst item in
    let amount := snd item in
    if (color =? "r")%string then
      v <- lift (getitem color_ranges amount) ;; modify (set_r_range v)
    else if (color =? "g")%string then
      v <- lift (getitem color_ranges amount) ;; modify (set_g_range v)
    else if (color =? "b")%string then
      v <- lift (getitem color_ranges amount) ;; modify (set_b_range v)
    else ret tt).

Definition opacity_ranges : list (Q * Q) :=
  [(0, 33 # 100); (33 # 100, 66 # 100); (66 # 100, 1); (1, 1)]%Q.

Definition op_amt (amt : Z) : M t unit :=
  if int_in amt [0; 1; 2; 3] then
    v <- lift (getitem opacity_ranges amt) ;; modify (set_opacity_range v)
  else ret tt.

End PyArtConfig.

(** ** Sequencing of fallible pure steps *)
Definition and_then {A B : Type} (r : result A) (k : A -> result B) : result B :=
  match r with
  | Ok a => k a
  | Raise e => Raise e
  end.

(** [list(map(f, l))] for a function that may raise: the first failure
    wins. *)
Fixpoint map_result {A B : Type} (f : A -> result B) (l : list A)
  : result (list B) :=
  match l with
  | [] => Ok []
  | a :: rest =>
      and_then (f a) (fun b =>
      and_then (map_result f rest) (fun bs => Ok (b :: bs)))
  end.

(** [l[1:-1]]: the list without its first and its last item. *)
Definition slice_1_m1 {A : Type} (l : list A) : list A := removelast (tl l).

(** ** RandomShape *)
Module RandomShape.

Record t : Type := {
  config : PyArtConfig.t;
  shape_type : Z;
  radius : Z;
  width : Z;
  height : Z;
  rx : Z;
  ry : Z;
  x : Z;
  y : Z;
  color_r : Z;
  color_g : Z;
  color_b : Z;
  opacity : float1
}.

(** [generate_shape]: twelve draws, in the order of the assignments. The
    attributes are returned as one record once all draws succeeded. *)
Definition generate_shape (config : PyArtConfig.t) : M random.state t :=
  shape_type <- random.choice (PyArtConfig.shape_type_range config) ;;
  radius <- random.randint (fst (PyArtConfig.radius_range config))
                           (snd (PyArtConfig.radius_range config)) ;;
  width <- random.randint (fst (PyArtConfig.w_h_range config))
                          (snd (PyArtConfig.w_h_range config)) ;;
  height <- random.randint (fst (PyArtConfig.w_h_range config))
                           (snd (PyArtConfig.w_h_range config)) ;;
  rx <- random.randint (fst (PyArtConfig.rxy_range config))
                       (snd (PyArtConfig.rxy_range config)) ;;
  ry <- random.randint (fst (PyArtConfig.rxy_range config))
                       (snd (PyArtConfig.rxy_range config)) ;;
  x <- random.randint (fst (PyArtConfig.x_range config))
                      (snd (PyArtConfig.x_range config)) ;;
  y <- random.randint (fst (PyArtConfig.y_range config))
                      (snd (PyArtConfig.y_range config)) ;;
  color_r <- random.randint (fst (PyArtConfig.r_range config))
                            (snd (PyArtConfig.r_range config)) ;;
  color_g <- random.randint (fst (PyArtConfig.g_range config))
                            (snd (PyArtConfig.g_range config)) ;;
  color_b <- random.randint (fst (PyArtConfig.b_range config))
                            (snd (PyArtConfig.b_range config)) ;;
  u <- random.uniform (fst (PyArtConfig.opacity_range config))
                      (snd (PyArtConfig.opacity_range config)) ;;
  ret {| config := config; shape_type := shape_type; radius := radius;
         width := width; height := height; rx := rx; ry := ry;
         x := x; y := y; color_r := color_r; color_g := color_g;
         color_b := color_b; opacity := round_1 u |}.

(** [RandomShape(config)] *)
Definition __init__ (config : PyArtConfig.t) : M random.state t :=
  generate_shape config.

Definition nl : string := String newline EmptyString.

Definition __str__ (self : t) : string :=
  str_int (shape_type self) ++ nl
    ++ str_int (x self) ++ nl
    ++ str_int (y self) ++ nl
    ++ str_int (radius self) ++ nl
    ++ str_int (width self) ++ nl
    ++ str_int (height self) ++ nl
    ++ str_int (rx self) ++ nl
    ++ str_int (ry self) ++ nl
    ++ str_int (color_r self) ++ nl
    ++ str_int (color_g self) ++ nl
    ++ str_int (color_b self) ++ nl
    ++ str_float (opacity self).

Definition as_Part2_line (self : t) : string :=
  replace newline space (__str__ self).

(** The list [data] that [as_svg] builds from the flattened line: items
    1 to 10 parsed as ints, the last item parsed as a float. *)
Definition as_svg_data (self : t) : result (list pyval) :=
  let input_string := as_Part2_line self in
  and_then (map_result parse_int (slice_1_m1 (split space input_string)))
    (fun ints =>
  and_then (getitem (split space input_string) (-1)) (fun last =>
  and_then (parse_float last) (fun f =>
  Ok (map PInt ints ++ [PFloat f])%list))).

(** The shape tuple [as_svg] constructs before drawing it. *)
Definition as_svg_shape (self : t) : result Shape :=
  and_then (as_svg_data self) (fun data =>
    if shape_type self =? 0 then
      and_then (from_positional data) (fun f => Ok (Circle f))
    else if shape_type self =? 1 then
      and_then (from_positional data) (fun f => Ok (Rectangle f))
    else
      and_then (from_positional data) (fun f => Ok (Ellipse f))).

Definition as_svg (self : t) : result string :=
  and_then (as_svg_shape self) (fun s => Ok (draw s draw_default_indent)).

End RandomShape.

(** ** TableGen

    The frame is modelled up to the call of [to_string]: its column names
    and its rows of cells. *)
Inductive cell : Type :=
| CStr (s : string)
| CInt (z : Z)
| CNone.

Record DataFrame : Type := {
  columns : list string;
  rows : list (list cell)
}.

(** A row padded with missing values up to [w] cells. *)
Definition pad_row (w : nat) (r : list string) : list cell :=
  (map CStr r ++ repeat CNone (w - length r))%list.

(** [pd.DataFrame(data, columns=headers)] on a list of rows: the widest row
    must have as many items as there are headers (ValueError otherwise), and
    shorter rows are padded with missing values. *)
Definition pd_DataFrame (data : list (list string)) (headers : list string)
  : result DataFrame :=
  let w := fold_right Nat.max O (map (@length string) data) in
  match data with
  | [] => Ok {| columns := headers; rows := [] |}
  | _ =>
      if (w =? length headers)%nat
      then Ok {| columns := headers; rows := map (pad_row w) data |}
      else Raise ValueError
  end.

(** [df[name] = df.index]: a new last column holding the row numbers. *)
Fixpoint number_rows (i : Z) (rs : list (list cell)) : list (list cell) :=
  match rs with
  | [] => []
  | r :: rest => (r ++ [CInt i])%list :: number_rows (i + 1) rest
  end.

Definition add_index_column (name : string) (df : DataFrame) : DataFrame :=
  {| columns := (columns df ++ [name])%list; rows := number_rows 0 (rows df) |}.

(** Position of a column name among the columns. *)
Fixpoint column_index (name : string) (cols : list string) : option nat :=
  match cols with
  | [] => None
  | c :: rest =>
      if (c =? name)%string then Some O
      else option_map S (column_index name rest)
  end.

(** The cell of a row under the column called [name]. *)
Definition cell_under (cols : list string) (name : string) (r : list cell)
  : result cell :=
  match column_index name cols with
  | Some i =>
      match nth_error r i with
      | Some c => Ok c
      | None => Raise KeyError
      end
  | None => Raise KeyError
  end.

(** [df[names]]: the named columns, in the order asked for; KeyError for a
    name that is no column. *)
Definition select_columns (names : list string) (df : DataFrame)
  : result DataFrame :=
  and_then
    (map_result
       (fun r => map_result (fun n => cell_under (columns df) n r) names)
       (rows df))
    (fun rs => Ok {| columns := names; rows := rs |}).

Module TableGen.

Definition headers : list string :=
  ["SHA"; "X"; "Y"; "RAD"; "RX"; "RY"; "W"; "H"; "R"; "G"; "B"; "OP"].

(** [gen_df], up to the frame handed to [to_string(index=False)]. *)
Definition gen_df (lines : list string) : result DataFrame :=
  let data := map (split space) lines in
  and_then (pd_DataFrame data headers) (fun df =>
  let df := add_index_column "CNT" df in
  select_columns ("CNT" :: headers) df).

End TableGen.

(** ** Sequences of preset calls *)
Inductive preset_call : Type :=
| CallShapes (shape amt : Z)
| CallSize (shape_sizes : dict string string)
| CallColor (color_amounts : dict string Z)
| CallOpAmt (amt : Z).

Definition call (p : preset_call) : M PyArtConfig.t unit :=
  match p with
  | CallShapes shape amt => PyArtConfig.shapes shape amt
  | CallSize shape_sizes => PyArtConfig.size shape_sizes
  | CallColor color_amounts => PyArtConfig.color color_amounts
  | CallOpAmt amt => PyArtConfig.op_amt amt
  end.

(** The calls one after the other; a raised exception ends the sequence. *)
Definition run_calls (ps : list preset_call) : M PyArtConfig.t unit :=
  for_each ps call.

(** ** Ranges *)
Definition valid_int_range (r : Z * Z) : Prop := fst r <= snd r.

Definition in_int_range (v : Z) (r : Z * Z) : Prop := fst r <= v <= snd r.

Definition valid_real_range (r : Q * Q) : Prop := (fst r <= snd r)%Q.


(** Every int range of the configuration has [low <= high]. *)
Definition valid_int_ranges (c : PyArtConfig.t) : Prop :=
  valid_int_range (PyArtConfig.x_range c) /\
  valid_int_range (PyArtConfig.y_range c) /\
  valid_int_range (PyArtConfig.radius_range c) /\
  valid_int_range (PyArtConfig.rxy_range c) /\
  valid_int_range (PyArtConfig.w_h_range c) /\
  valid_int_range (PyArtConfig.r_range c) /\
  valid_int_range (PyArtConfig.g_range c) /\
  valid_int_range (PyArtConfig.b_range c).

(** Every range of the configuration has [low <= high]. *)
Definition valid_ranges (c : PyArtConfig.t) : Prop :=
  valid_int_ranges c /\ valid_real_range (PyArtConfig.opacity_range c).

(** The colour band of a level, as documented: none, low, medium, high,
    max. *)
Definition color_band (level : Z) : Z * Z :=
  if level =? 0 then (0, 0)
  else if level =? 1 then (0, 85)
  else if level =? 2 then (85, 170)
  else if level =? 3 then (170, 255)
  else (255, 255).


(** The kinds other than [k], in increasing order. *)
Definition other_kinds (k : Z) : list Z :=
  filter (fun j => negb (j =? k)) [0; 1; 2].

(** ** Inputs used by the examples *)
Definition canvas_200x100 : SvgCanvas.t :=
  {| SvgCanvas.width := 200; SvgCanvas.height := 100; SvgCanvas.bg := "white" |}.


(** A random source with varying raw draws. *)
Definition mixed_source : random.state :=
  {| random.raw := fun n => Z.of_nat n * 7919 + 13; random.pos := O |}.

(** ** Character classes of the printed numbers *)

(** Every character of [s] satisfies [p]. *)
Fixpoint string_forall (p : ascii -> bool) (s : string) : bool :=
  match s with
  | EmptyString => true
  | String c r => p c && string_forall p r
  end.

Definition is_digit (c : ascii) : bool :=
  let n := nat_of_ascii c in (48 <=? n)%nat && (n <=? 57)%nat.

(** The characters a printed int or one-decimal float is made of. *)
Definition num_char (c : ascii) : bool :=
  is_digit c || (c =? "-")%char || (c =? ".")%char.

Definition numeric (s : string) : Prop := string_forall num_char s = true.

(** The fields of the shape tuple built from a sampled shape. *)
Definition fields_of (rs : RandomShape.t) : fields :=
  {| ShapeFields.x := PInt (RandomShape.x rs);
     ShapeFields.y := PInt (RandomShape.y rs);
     ShapeFields.rad := PInt (RandomShape.radius rs);
     ShapeFields.width := PInt (RandomShape.width rs);
     ShapeFields.height := PInt (RandomShape.height rs);
     ShapeFields.rx := PInt (RandomShape.rx rs);
     ShapeFields.ry := PInt (RandomShape.ry rs);
     ShapeFields.red := PInt (RandomShape.color_r rs);
     ShapeFields.green := PInt (RandomShape.color_g rs);
     ShapeFields.blue := PInt (RandomShape.color_b rs);
     ShapeFields.op := PFloat (RandomShape.opacity rs) |}.

(** The class [as_svg] picks for a kind: circle for 0, rectangle for 1,
    ellipse otherwise. *)
Definition class_of (kind : Z) : fields -> Shape :=
  if kind =? 0 then Circle else if kind =? 1 then Rectangle else Ellipse.


(** The shape the default configuration of a 200 x 100 canvas yields from
    [mixed_source]. *)
Definition sampled_rectangle : RandomShape.t :=
  {| RandomShape.config := PyArtConfig.default canvas_200x100;
     RandomShape.shape_type := 1;
     RandomShape.radius := 54;
     RandomShape.width := 27;
     RandomShape.height := 29;
     RandomShape.rx := 10;
     RandomShape.ry := 12;
     RandomShape.x := 91;
     RandomShape.y := 98;
     RandomShape.color_r := 133;
     RandomShape.color_g := 116;
     RandomShape.color_b := 99;
     RandomShape.opacity := 0 |}.

(** The row [gen_df] builds for the line of one sampled shape: the row
    number, then the twelve printed attributes in the order of the line. *)
Definition table_row (i : Z) (rs : RandomShape.t) : list cell :=
  [ CInt i;
    CStr (str_int (RandomShape.shape_type rs));
    CStr (str_int (RandomShape.x rs));
    CStr (str_int (RandomShape.y rs));
    CStr (str_int (RandomShape.radius rs));
    CStr (str_int (RandomShape.width rs));
    CStr (str_int (RandomShape.height rs));
    CStr (str_int (RandomShape.rx rs));
    CStr (str_int (RandomShape.ry rs));
    CStr (str_int (RandomShape.color_r rs));
    CStr (str_int (RandomShape.color_g rs));
    CStr (str_int (RandomShape.color_b rs));
    CStr (str_float (RandomShape.opacity rs)) ].


(** The configuration can be sampled from: its ranges have low <= high and
    at least one kind is allowed. *)
Definition samplable (c : PyArtConfig.t) : Prop :=
  valid_ranges c /\ PyArtConfig.shape_type_range c <> [].

(** The preset calls of [GenMatrix.gen], in the order it makes them. *)
Definition matrix_calls : list preset_call :=
  [ CallShapes 1 1; CallSize [("r", "s")];
    CallColor [("g", 3); ("r", 0); ("b", 0)] ].

(** A level [color] can index the band list with: from -5 to 4. *)
Definition level_ok (level : Z) : Prop := -5 <= level <= 4.

(** The key is one of the three channels. *)
Definition is_channel (key : string) : bool :=
  ((key =? "r") || (key =? "g") || (key =? "b"))%string.

(** ** Expected texts of the three elements

    Written out attribute by attribute, for the statements about what
    [as_svg] returns. *)
Definition quoted (s : string) : string := dquote ++ s ++ dquote.

Definition fill_text (r g b : Z) (o : float1) : string :=
  "fill=" ++ quoted ("rgb(" ++ str_int r ++ ", " ++ str_int g ++ ", "
                       ++ str_int b ++ ")")
    ++ " fill-opacity=" ++ quoted (str_float o).

Definition circle_text (cx cy r : Z) (fill : string) : string :=
  "<circle cx=" ++ quoted (str_int cx) ++ " cy=" ++ quoted (str_int cy)
    ++ " r=" ++ quoted (str_int r) ++ " " ++ fill ++ "></circle>".

Definition rect_text (x y w h : Z) (fill : string) : string :=
  "<rect x=" ++ quoted (str_int x) ++ " y=" ++ quoted (str_int y)
    ++ " width=" ++ quoted (str_int w) ++ " height=" ++ quoted (str_int h)
    ++ " " ++ fill ++ "></rect>".

Definition ellipse_text (cx cy rx ry : Z) (fill : string) : string :=
  "<ellipse cx=" ++ quoted (str_int cx) ++ " cy=" ++ quoted (str_int cy)
    ++ " rx=" ++ quoted (str_int rx) ++ " ry=" ++ quoted (str_int ry)
    ++ " " ++ fill ++ "></ellipse>".

(** The element a sampled shape is drawn as, by kind. *)
Definition element_text (rs : RandomShape.t) : string :=
  let fill := fill_text (RandomShape.color_r rs) (RandomShape.color_g rs)
                        (RandomShape.color_b rs) (RandomShape.opacity rs) in
  if RandomShape.shape_type rs =? 0 then
    circle_text (RandomShape.x rs) (RandomShape.y rs) (RandomShape.radius rs)
                fill
  else if RandomShape.shape_type rs =? 1 then
    rect_text (RandomShape.x rs) (RandomShape.y rs) (RandomShape.width rs)
              (RandomShape.height rs) fill
  else
    ellipse_text (RandomShape.x rs) (RandomShape.y rs) (RandomShape.rx rs)
                 (RandomShape.ry rs) fill.

(** The twelve printed attributes of a sampled shape, in line order. *)
Definition printed_attributes (rs : RandomShape.t) : list string :=
  [ str_int (RandomShape.shape_type rs); str_int (RandomShape.x rs);
    str_int (RandomShape.y rs); str_int (RandomShape.radius rs);
    str_int (RandomShape.width rs); str_int (RandomShape.height rs);
    str_int (RandomShape.rx rs); str_int (RandomShape.ry rs);
    str_int (RandomShape.color_r rs); str_int (RandomShape.color_g rs);
    str_int (RandomShape.color_b rs); str_float (RandomShape.opacity rs) ].

(** The rows of the table of a list of sampled shapes, numbered from [i]. *)
Fixpoint table_rows (i : Z) (shapes : list RandomShape.t) : list (list cell) :=
  match shapes with
  | [] => []
  | rs :: rest => table_row i rs :: table_rows (i + 1) rest
  end.

(** A default configuration with an inverted radius range. *)
Definition inverted_radius_config : PyArtConfig.t :=
  PyArtConfig.set_radius_range (9, 3) (PyArtConfig.default canvas_200x100).


(** ** Files and the world the drivers run in

    The world is the content of every file, by name, and the random
    source. A file handle is the name of the file it was opened on. *)
Definition eol : string := String newline EmptyString.

Record world : Type := {
  files : string -> option string;
  source : random.state
}.

(** The world in which the file [name] holds [content]. *)
Definition with_file (name content : string) (w : world) : world :=
  {| files := fun n => if (n =? name)%string then Some content else files w n;
     source := source w |}.

(** [open(filename, "w")]: the file is created, or emptied if it exists. *)
Definition open_w (filename : string) : M world string :=
  fun w => (Ok filename, with_file filename EmptyString w).

(** [file.write(text)]: the text is appended. A handle whose file does not
    exist cannot come from [open_w]; writing through it raises. *)
Definition file_write (file text : string) : M world unit :=
  fun w =>
    match files w file with
    | Some old => (Ok tt, with_file file (old ++ text) w)
    | None => (Raise ValueError, w)
    end.

(** [file.close()]: nothing is written after a close in this program, so
    the handle state is not tracked. *)
Definition file_close (file : string) : M world unit := ret tt.

(** A computation on the random source, run on the source of the world. *)
Definition with_source {A : Type} (m : M random.state A) : M world A :=
  fun w =>
    match m (source w) with
    | (r, s') => (r, {| files := files w; source := s' |})
    end.

(** A sequence of method calls on a local configuration object: the
    configuration they leave, or the exception one of them raised. *)
Definition configure (config : PyArtConfig.t) (m : M PyArtConfig.t unit)
  : M world PyArtConfig.t :=
  fun w =>
    match m config with
    | (Ok _, config') => (Ok config', w)
    | (Raise e, _) => (Raise e, w)
    end.

(** [with enter as r: body]: [exit] runs whether the body returned or
    raised; an exception of the body is raised again after it, unless
    [exit] itself raises. *)
Definition with_ {S R A : Type} (enter : M S R) (exit : R -> M S unit)
    (body : R -> M S A) : M S A :=
  fun s =>
    match enter s with
    | (Raise e, s1) => (Raise e, s1)
    | (Ok r, s1) =>
        match body r s1 with
        | (res, s2) =>
            match exit r s2 with
            | (Ok _, s3) => (res, s3)
            | (Raise e', s3) => (Raise e', s3)
            end
        end
    end.

(** [range(n)] *)
Definition range (n : Z) : list Z := map Z.of_nat (seq 0 (Z.to_nat n)).

(** ** HtmlComponent *)
Module HtmlComponent.

Definition write_html_comment (file comment : string) (indent_level : Z)
  : M world unit :=
  let indentation := str_mul "   " indent_level in
  file_write file (indentation ++ "<!-- " ++ comment ++ " -->" ++ eol).

Definition write_html_line (file line : string) (indent_level : Z)
  : M world unit :=
  let indentation := str_mul "   " indent_level in
  file_write file (indentation ++ line ++ eol).

End HtmlComponent.

(** ** HtmlDocument

    The [file] attribute is None until the document is entered and is only
    used after that; the record is the entered document, holding the handle
    [open] returned. *)
Module HtmlDocument.

Record t : Type := { filename : string; title : string; file : string }.

(** [HtmlDocument(filename, title).__enter__()] *)
Definition __enter__ (filename title : string) : M world t :=
  f <- open_w filename ;;
  HtmlComponent.write_html_line f "<html>" 0 ;;;
  HtmlComponent.write_html_line f "<head>" 0 ;;;
  HtmlComponent.write_html_line f ("<title>" ++ title ++ "</title>") 1 ;;;
  HtmlComponent.write_html_line f "</head>" 0 ;;;
  HtmlComponent.write_html_line f "<body>" 0 ;;;
  ret {| filename := filename; title := title; file := f |}.

Definition __exit__ (self : t) : M world unit :=
  HtmlComponent.write_html_line (file self) "</body>" 0 ;;;
  HtmlComponent.write_html_line (file self) "</html>" 0 ;;;
  file_close (file self).

End HtmlDocument.

(** ** SvgCanvas with its file

    [SvgCanvas.t] above holds the attributes the configuration reads; the
    methods that write need the file as well. *)
Module SvgCanvasFile.

Record t : Type := { file : string; canvas : SvgCanvas.t }.

(** [SvgCanvas(file, width, height, bg)] *)
Definition __init__ (file : string) (width height : Z) (bg : string) : t :=
  {| file := file;
     canvas := {| SvgCanvas.width := width; SvgCanvas.height := height;
                  SvgCanvas.bg := bg |} |}.

(** The default of the [bg] argument. *)
Definition default_bg : string := "white".

Definition __enter__ (self : t) : M world t :=
  HtmlComponent.write_html_comment (file self) "Define SVG drawing box" 1 ;;;
  HtmlComponent.write_html_line (file self)
    ("<svg width=" ++ dquote ++ str_int (SvgCanvas.width (canvas self))
       ++ dquote ++ " height=" ++ dquote
       ++ str_int (SvgCanvas.height (canvas self)) ++ dquote
       ++ " style=" ++ dquote ++ "background-color: "
       ++ SvgCanvas.bg (canvas self) ++ ";" ++ dquote ++ ">") 1 ;;;
  ret self.

Definition __exit__ (self : t) : M world unit :=
  HtmlComponent.write_html_line (file self) "</svg>" 1.

(** [genArt(shape, indent_level)]: the drawn line, written with no further
    indentation. *)
Definition genArt (self : t) (shape : Shape) (indent_level : Z) : M world unit :=
  let line := draw shape indent_level in
  HtmlComponent.write_html_line (file self) line 0.

End SvgCanvasFile.

(** ** random.sample

    The branch of [sample] for a population of at most 21 items, the only
    one the program reaches: the chosen item is taken out of a pool by
    moving the last live item of the pool into its place. *)

(** [l[i] = v] for an index within the list. *)
Fixpoint list_set {A : Type} (l : list A) (i : nat) (v : A) : list A :=
  match l, i with
  | [], _ => []
  | _ :: rest, O => v :: rest
  | a :: rest, S j => a :: list_set rest j v
  end.

(** [todo] more picks from the first [live] items of [pool]. *)
Fixpoint sample_loop {A : Type} (pool : list A) (live : Z) (todo : nat)
  : M random.state (list A) :=
  match todo with
  | O => ret []
  | S t =>
      j <- random._randbelow live ;;
      picked <- lift (getitem pool j) ;;
      last <- lift (getitem pool (live - 1)) ;;
      rest <- sample_loop (list_set pool (Z.to_nat j) last) (live - 1) t ;;
      ret (picked :: rest)
  end.

(** [random.sample(population, k)]: ValueError unless [0 <= k <= n]. *)
Definition sample {A : Type} (population : list A) (k : Z)
  : M random.state (list A) :=
  let n := Z.of_nat (length population) in
  if (0 <=? k) && (k <=? n) then sample_loop population n (Z.to_nat k)
  else raise ValueError.

(** [d[k] = v]: the value of an existing key is replaced where it stands,
    a new key goes to the end. *)
Fixpoint dict_set {V : Type} (d : dict string V) (k : string) (v : V)
  : dict string V :=
  match d with
  | [] => [(k, v)]
  | (k', v') :: rest =>
      if (k' =? k)%string then (k, v) :: rest
      else (k', v') :: dict_set rest k v
  end.

(** [{k: f() for k in keys}], built up from [acc]. *)
Fixpoint dict_comprehension {S V : Type} (keys : list string) (f : M S V)
    (acc : dict string V) : M S (dict string V) :=
  match keys with
  | [] => ret acc
  | k :: rest =>
      v <- f ;; dict_comprehension rest f (dict_set acc k v)
  end.

(** ** The drivers *)
Module GenRandom.

(** The two statements [rand_dict] ends with, for the key and value lists
    its branches set. *)
Definition rand_dict_of {V : Type} (keys : list string) (values : list V)
  : M random.state (dict string V) :=
  k <- random.randint 1 3 ;;
  keys <- sample keys k ;;
  dict_comprehension keys (random.choice values) [].

(** [rand_dict('size')] *)
Definition rand_dict_size : M random.state (dict string string) :=
  rand_dict_of ["c"; "r"; "e"] ["s"; "m"; "l"].

(** [rand_dict('color')] *)
Definition rand_dict_color : M random.state (dict string Z) :=
  rand_dict_of ["r"; "g"; "b"] [0; 1; 2; 3; 4].

(** [rand_dict(type)] for every other [type]: the empty dict, no draw. *)
Definition rand_dict_other {V : Type} : M random.state (dict string V) :=
  ret [].

Definition gen : M world unit :=
  let filename := "a431.html" in
  let title := "a431 - CardGenRandom" in
  canvas_w <- with_source (random.randint 100 1440) ;;
  canvas_h <- with_source (random.randint 100 900) ;;
  canvas_color <- with_source (random.choice ["black"; "white"]) ;;
  with_ (HtmlDocument.__enter__ filename title) HtmlDocument.__exit__
    (fun doc =>
  with_ (SvgCanvasFile.__enter__
           (SvgCanvasFile.__init__ (HtmlDocument.file doc) canvas_w canvas_h
                                   SvgCanvasFile.default_bg))
        SvgCanvasFile.__exit__
    (fun canvas =>
  let config := PyArtConfig.default (SvgCanvasFile.canvas canvas) in
  shape <- with_source (random.choice [0; 1; 2]) ;;
  amt <- with_source (random.choice [0; 1]) ;;
  config <- configure config (PyArtConfig.shapes shape amt) ;;
  shape_sizes <- with_source rand_dict_size ;;
  config <- configure config (PyArtConfig.size shape_sizes) ;;
  color_amounts <- with_source rand_dict_color ;;
  config <- configure config (PyArtConfig.color color_amounts) ;;
  level <- with_source (random.randint 0 4) ;;
  config <- configure config (PyArtConfig.op_amt level) ;;
  num_shapes <- with_source (random.randint 1 1000) ;;
  for_each (range num_shapes) (fun _ =>
    rand <- with_source (RandomShape.__init__ config) ;;
    line <- lift (RandomShape.as_svg rand) ;;
    HtmlComponent.write_html_line (SvgCanvasFile.file canvas) line 0))).

End GenRandom.

Module GenMatrix.

Definition gen : M world unit :=
  let filename := "a432.html" in
  let title := "a432 - GenMatrix" in
  let canvas_w := 2000 in
  let canvas_h := 10000 in
  with_ (HtmlDocument.__enter__ filename title) HtmlDocument.__exit__
    (fun doc =>
  with_ (SvgCanvasFile.__enter__
           (SvgCanvasFile.__init__ (HtmlDocument.file doc) canvas_w canvas_h
                                   "black"))
        SvgCanvasFile.__exit__
    (fun canvas =>
  let config := PyArtConfig.default (SvgCanvasFile.canvas canvas) in
  config <- configure config (PyArtConfig.shapes 1 1) ;;
  config <- configure config (PyArtConfig.size [("r", "s")]) ;;
  config <- configure config
              (PyArtConfig.color [("g", 3); ("r", 0); ("b", 0)]) ;;
  let num_shapes := 1000 in
  for_each (range num_shapes) (fun _ =>
    rand <- with_source (RandomShape.__init__ config) ;;
    line <- lift (RandomShape.as_svg rand) ;;
    HtmlComponent.write_html_line (SvgCanvasFile.file canvas) line 0))).

End GenMatrix.

Module GenThinkPad.

Definition gen : M world unit :=
  let filename := "a433.html" in
  let title := "a433 - GenThinkPad" in
  let canvas_w := 1900 in
  let canvas_h := 1170 in
  with_ (HtmlDocument.__enter__ filename title) HtmlDocument.__exit__
    (fun doc =>
  with_ (SvgCanvasFile.__enter__
           (SvgCanvasFile.__init__ (HtmlDocument.file doc) canvas_w canvas_h
                                   "black"))
        SvgCanvasFile.__exit__
    (fun canvas =>
  let config := PyArtConfig.default (SvgCanvasFile.canvas canvas) in
  config <- configure config (PyArtConfig.color [("g", 0); ("b", 0)]) ;;
  let num_shapes := 300 in
  for_each (range num_shapes) (fun _ =>
    rand <- with_source (RandomShape.__init__ config) ;;
    line <- lift (RandomShape.as_svg rand) ;;
    HtmlComponent.write_html_line (SvgCanvasFile.file canvas) line 0))).

End GenThinkPad.


(** ** Expected text of a card *)

(** The line written for one sampled shape. *)
Definition shape_line (rs : RandomShape.t) : string :=
  "      " ++ element_text rs ++ eol.








(** A world with no file, drawing from [mixed_source]. *)
Definition empty_world : world :=
  {| files := fun _ => None; source := mixed_source |}.

(** The world [w'] is [w] with [text] appended to the file [f], which
    exists in [w]; every other file is as it was. *)
Definition appended (f text : string) (w w' : world) : Prop :=
  (exists c, files w f = Some c /\ files w' f = Some (c ++ text)) /\
  (forall g, g <> f -> files w' g = files w g).




(** The first [live] items of the pool are pairwise different. *)
Definition distinct_upto {A : Type} (pool : list A) (live : nat) : Prop :=
  forall i1 i2 : nat,
    (i1 < live)%nat -> (i2 < live)%nat ->
    nth_error pool i1 = nth_error pool i2 -> i1 = i2.





(** A world whose only file, t.html, is empty. *)
Definition one_file_world : world := with_file "t.html" EmptyString empty_world.

(** * Properties *)

(** ** The monad *)

Lemma state_after_bind {S A B : Type} (m : M S A) (k : A -> M S B) (s : S) :
  state_after (bind m k) s =
  match outcome m s with
  | Ok a => state_after (k a) (state_after m s)
  | Raise _ => state_after m s
  end.
Proof.
  unfold state_after, outcome, bind.
  destruct (m s) as [[a | e] s']; reflexivity.
Qed.

(** A property of the state that every iteration keeps, whatever its
    outcome, is kept by the whole loop. *)
Lemma for_each_preserves {S A : Type} (P : S -> Prop) (body : A -> M S unit) :
  (forall a s, P s -> P (state_after (body a) s)) ->
  forall xs s, P s -> P (state_after (for_each xs body) s).
Proof.
  intros Hbody xs.
  induction xs as [| a rest IH]; intros s Hs.
  - exact Hs.
  - simpl for_each. rewrite state_after_bind.
    destruct (outcome (body a) s).
    + apply IH. apply Hbody. exact Hs.
    + apply Hbody. exact Hs.
Qed.

(** ** C7: the freshly initialised configuration *)

(** C7. For every canvas of width w and height h, the configuration built
    by PyArtConfig(canvas) has x_range (0, w), y_range (0, h), radius_range
    (0, 100), rxy_range (10, 30), w_h_range (10, 100), every colour range
    (0, 255), opacity_range (0, 1) and all three shape kinds allowed. *)
Theorem default_config_ranges (c : SvgCanvas.t) :
  let cfg := PyArtConfig.default c in
  PyArtConfig.x_range cfg = (0, SvgCanvas.width c) /\
  PyArtConfig.y_range cfg = (0, SvgCanvas.height c) /\
  PyArtConfig.radius_range cfg = (0, 100) /\
  PyArtConfig.rxy_range cfg = (10, 30) /\
  PyArtConfig.w_h_range cfg = (10, 100) /\
  PyArtConfig.r_range cfg = (0, 255) /\
  PyArtConfig.g_range cfg = (0, 255) /\
  PyArtConfig.b_range cfg = (0, 255) /\
  PyArtConfig.opacity_range cfg = (0%Q, 1%Q) /\
  PyArtConfig.shape_type_range cfg = [0; 1; 2].
Proof.
  cbv zeta. unfold PyArtConfig.default, PyArtConfig.__init__. simpl.
  repeat split.
Qed.

(** ** C6: opacity levels *)




(** ** C4: size classes *)

(** A pair of keys outside the nine of the table has no entry. *)
Lemma size_ranges_miss (kind sz : string) :
  ~ (In kind ["c"; "r"; "e"] /\ In sz ["s"; "m"; "l"]) ->
  dict_get pair_eqb PyArtConfig.size_ranges (kind, sz) = None.
Proof.
  intros Hout. cbv [dict_get PyArtConfig.size_ranges pair_eqb fst snd].
  destruct (String.eqb_spec "c" kind), (String.eqb_spec "r" kind),
    (String.eqb_spec "e" kind), (String.eqb_spec "s" sz),
    (String.eqb_spec "m" sz), (String.eqb_spec "l" sz);
    simpl; try reflexivity; exfalso; apply Hout; simpl; tauto.
Qed.

(** Every entry of the table names one of the three size attributes. *)
Lemma size_ranges_hit (k : string * string) (name : string) (v : Z * Z) :
  dict_get pair_eqb PyArtConfig.size_ranges k = Some (name, v) ->
  name = "radius_range" \/ name = "w_h_range" \/ name = "rxy_range".
Proof.
  unfold PyArtConfig.size_ranges. simpl.
  repeat match goal with
         | |- context [pair_eqb ?a ?b] => destruct (pair_eqb a b)
         end;
    intros H; inversion H; auto.
Qed.

(** C4. size with a single (kind, size class) item overwrites exactly the
    size range of that kind with the documented band: radius_range for 'c',
    w_h_range for 'r', rxy_range for 'e'; a pair outside the nine changes
    nothing. *)
Theorem size_sets_band (c : PyArtConfig.t) :
  PyArtConfig.size [("c", "s")] c = (Ok tt, PyArtConfig.set_radius_range (0, 33) c) /\
  PyArtConfig.size [("c", "m")] c = (Ok tt, PyArtConfig.set_radius_range (33, 66) c) /\
  PyArtConfig.size [("c", "l")] c = (Ok tt, PyArtConfig.set_radius_range (66, 100) c) /\
  PyArtConfig.size [("r", "s")] c = (Ok tt, PyArtConfig.set_w_h_range (10, 40) c) /\
  PyArtConfig.size [("r", "m")] c = (Ok tt, PyArtConfig.set_w_h_range (40, 70) c) /\
  PyArtConfig.size [("r", "l")] c = (Ok tt, PyArtConfig.set_w_h_range (70, 100) c) /\
  PyArtConfig.size [("e", "s")] c = (Ok tt, PyArtConfig.set_rxy_range (10, 17) c) /\
  PyArtConfig.size [("e", "m")] c = (Ok tt, PyArtConfig.set_rxy_range (17, 24) c) /\
  PyArtConfig.size [("e", "l")] c = (Ok tt, PyArtConfig.set_rxy_range (24, 30) c) /\
  (forall kind sz : string,
      ~ (In kind ["c"; "r"; "e"] /\ In sz ["s"; "m"; "l"]) ->
      PyArtConfig.size [(kind, sz)] c = (Ok tt, c)) /\
  (forall canvas : SvgCanvas.t,
      PyArtConfig.radius_range
        (state_after (PyArtConfig.size [("c", "l")]) (PyArtConfig.default canvas))
      = (66, 100)).
Proof.
  repeat split; try reflexivity.
  intros kind sz Hout.
  unfold PyArtConfig.size. cbn [for_each fst snd].
  rewrite (size_ranges_miss kind sz Hout). reflexivity.
Qed.

Lemma size_sets_band_witness :
  ~ (In "c" ["c"; "r"; "e"] /\ In "x" ["s"; "m"; "l"]) /\
  PyArtConfig.size [("c", "x")] (PyArtConfig.default canvas_200x100)
    = (Ok tt, PyArtConfig.default canvas_200x100).
Proof.
  split.
  - simpl. intros [_ [H | [H | [H | []]]]]; discriminate H.
  - apply (size_sets_band (PyArtConfig.default canvas_200x100)).
    simpl. intros [_ [H | [H | [H | []]]]]; discriminate H.
Defined.

(** ** C5: colour levels *)

Lemma getitem_color_ranges_nonneg (level : Z) :
  0 <= level <= 4 ->
  getitem PyArtConfig.color_ranges level = Ok (color_band level).
Proof.
  intros H.
  assert (level = 0 \/ level = 1 \/ level = 2 \/ level = 3 \/ level = 4)
    as [-> | [-> | [-> | [-> | ->]]]] by lia; reflexivity.
Qed.

Lemma getitem_color_ranges_negative (level : Z) :
  -5 <= level < 0 ->
  getitem PyArtConfig.color_ranges level = Ok (color_band (level + 5)).
Proof.
  intros H.
  assert (level = -5 \/ level = -4 \/ level = -3 \/ level = -2 \/ level = -1)
    as [-> | [-> | [-> | [-> | ->]]]] by lia; reflexivity.
Qed.

Lemma getitem_color_ranges_outside (level : Z) :
  level < -5 \/ 5 <= level ->
  getitem PyArtConfig.color_ranges level = Raise IndexError.
Proof.
  intros H. unfold getitem, PyArtConfig.color_ranges. simpl length.
  change (Z.of_nat 5) with 5.
  destruct (Z.ltb_spec level 0) as [Hneg | Hpos].
  - destruct (Z.leb_spec 0 (level + 5)); [lia | reflexivity].
  - destruct (Z.leb_spec 0 level); [| lia].
    destruct (Z.ltb_spec level 5); [lia | reflexivity].
Qed.





(** ** C8: presets never touch the position ranges *)

(** One preset call keeps [x_range] and [y_range], whether it returns or
    raises. *)
Lemma call_keeps_position (p : preset_call) (c : PyArtConfig.t) :
  PyArtConfig.x_range (state_after (call p) c) = PyArtConfig.x_range c /\
  PyArtConfig.y_range (state_after (call p) c) = PyArtConfig.y_range c.
Proof.
  destruct p as [shape amt | shape_sizes | color_amounts | amt]; simpl call.
  - unfold PyArtConfig.shapes.
    destruct (int_in shape [0; 1; 2]); [| split; reflexivity].
    destruct (amt =? 1); [split; reflexivity |].
    destruct (amt =? 0); split; reflexivity.
  - unfold PyArtConfig.size.
    apply (for_each_preserves
             (fun s => PyArtConfig.x_range s = PyArtConfig.x_range c /\
                       PyArtConfig.y_range s = PyArtConfig.y_range c));
      [| split; reflexivity].
    intros item s [Hx Hy].
    destruct (dict_get pair_eqb PyArtConfig.size_ranges (fst item, snd item))
      as [[name v] |] eqn:Hget; [| split; assumption].
    destruct (0 <? String.length name)%nat; [| split; assumption].
    apply size_ranges_hit in Hget.
    destruct Hget as [-> | [-> | ->]]; split; assumption.
  - unfold PyArtConfig.color.
    apply (for_each_preserves
             (fun s => PyArtConfig.x_range s = PyArtConfig.x_range c /\
                       PyArtConfig.y_range s = PyArtConfig.y_range c));
      [| split; reflexivity].
    intros item s [Hx Hy].
    destruct (fst item =? "r")%string;
      [| destruct (fst item =? "g")%string;
         [| destruct (fst item =? "b")%string; [| split; assumption]]];
      unfold state_after, bind, lift;
      destruct (getitem PyArtConfig.color_ranges (snd item));
      split; assumption.
  - unfold PyArtConfig.op_amt.
    destruct (int_in amt [0; 1; 2; 3]); [| split; reflexivity].
    unfold state_after, bind, lift.
    destruct (getitem PyArtConfig.opacity_ranges amt); split; reflexivity.
Qed.

(** C8. Whatever sequence of shapes, size, color and op_amt calls is made
    on a configuration built for a canvas, with whatever arguments and
    whether or not a call raises, x_range is still (0, canvas width) and
    y_range still (0, canvas height) afterwards. *)
Theorem presets_keep_position_ranges
    (canvas : SvgCanvas.t) (kinds : list Z)
    (radius rxy w_h red green blue : Z * Z) (opacity : Q * Q)
    (calls : list preset_call) :
  let c := PyArtConfig.__init__ canvas kinds radius rxy w_h red green blue
                                opacity in
  PyArtConfig.x_range (state_after (run_calls calls) c)
    = (0, SvgCanvas.width canvas) /\
  PyArtConfig.y_range (state_after (run_calls calls) c)
    = (0, SvgCanvas.height canvas).
Proof.
  intros c. unfold run_calls.
  apply (for_each_preserves
           (fun s => PyArtConfig.x_range s = (0, SvgCanvas.width canvas) /\
                     PyArtConfig.y_range s = (0, SvgCanvas.height canvas))).
  - intros p s [Hx Hy].
    destruct (call_keeps_position p s) as [Hx' Hy'].
    rewrite Hx', Hy'. split; assumption.
  - split; reflexivity.
Qed.

(** ** Rounding half to even *)




(** ** The random source *)

Lemma bind_ok_inv {S A B : Type} (m : M S A) (k : A -> M S B)
    (s s2 : S) (b : B) :
  bind m k s = (Ok b, s2) ->
  exists a s1, m s = (Ok a, s1) /\ k a s1 = (Ok b, s2).
Proof.
  unfold bind. destruct (m s) as [[a | e] s1]; intros H.
  - exists a, s1. split; [reflexivity | exact H].
  - discriminate H.
Qed.

Lemma randint_ok (a b : Z) (s : random.state) :
  a <= b ->
  random.randint a b s
    = (Ok (a + random.raw s (random.pos s) mod (b + 1 - a)), random.advance s).
Proof.
  intros Hab. unfold random.randint.
  destruct (Z.ltb_spec 0 (b + 1 - a)); [reflexivity | lia].
Qed.

(** A value returned by [randint(a, b)] lies between [a] and [b]. *)
Lemma randint_inv (a b v : Z) (s s' : random.state) :
  random.randint a b s = (Ok v, s') -> a <= v <= b.
Proof.
  unfold random.randint.
  destruct (Z.ltb_spec 0 (b + 1 - a)) as [Hw | Hw]; [| discriminate].
  unfold random._randbelow, random.next, bind, ret. intros H.
  injection H as <- _.
  pose proof (Z.mod_pos_bound (random.raw s (random.pos s)) (b + 1 - a) Hw).
  lia.
Qed.

Lemma getitem_below {A : Type} (l : list A) (i : Z) :
  0 <= i < Z.of_nat (length l) ->
  exists a, getitem l i = Ok a /\ In a l.
Proof.
  intros Hi. unfold getitem.
  destruct (Z.ltb_spec i 0); [lia |].
  destruct (Z.leb_spec 0 i); [| lia].
  destruct (Z.ltb_spec i (Z.of_nat (length l))); [| lia].
  simpl andb.
  destruct (nth_error l (Z.to_nat i)) as [a |] eqn:Hnth.
  - exists a. split; [reflexivity |]. eapply nth_error_In; eassumption.
  - apply nth_error_None in Hnth. lia.
Qed.

Lemma choice_ok {A : Type} (seq : list A) (s : random.state) :
  seq <> [] ->
  exists a, random.choice seq s = (Ok a, random.advance s) /\ In a seq.
Proof.
  intros Hne. destruct seq as [| a0 rest]; [contradiction |].
  unfold random.choice, random._randbelow, random.next, bind, ret, lift.
  set (n := Z.of_nat (length (a0 :: rest))).
  assert (Hn : 0 < n) by (unfold n; simpl length; lia).
  destruct (getitem_below (a0 :: rest)
              (random.raw s (random.pos s) mod n)) as (a & Hget & Hin).
  { apply Z.mod_pos_bound. exact Hn. }
  exists a. rewrite Hget. split; [reflexivity | exact Hin].
Qed.

(** A value returned by [choice(seq)] is an item of [seq]. *)
Lemma choice_inv {A : Type} (seq : list A) (a : A) (s s' : random.state) :
  random.choice seq s = (Ok a, s') -> In a seq.
Proof.
  intros H. destruct seq as [| a0 rest]; [discriminate H |].
  destruct (choice_ok (a0 :: rest) s ltac:(discriminate)) as (a' & Hc & Hin).
  rewrite Hc in H. injection H as <- _. exact Hin.
Qed.

(** [random()] lies in the half-open unit interval. *)
Lemma random_unit_interval (s : random.state) :
  exists u : Q,
    random.random s = (Ok u, random.advance s) /\ (0 <= u)%Q /\ (u < 1)%Q.
Proof.
  exists ((random.raw s (random.pos s) mod 2 ^ 53) # 2 ^ 53).
  split; [reflexivity |].
  pose proof (Z.mod_pos_bound (random.raw s (random.pos s)) (2 ^ 53)
                ltac:(reflexivity)) as Hb.
  unfold Qle, Qlt. simpl Qnum. simpl Qden.
  change (Z.pos (2 ^ 53)) with (2 ^ 53) in *.
  split; lia.
Qed.

(** [uniform(a, b)] returns [a + (b - a) * u] for some [u] of the unit
    interval, and never raises. *)
Lemma uniform_ok (a b : Q) (s : random.state) :
  exists u : Q,
    random.uniform a b s = (Ok (a + (b - a) * u)%Q, random.advance s) /\
    (0 <= u)%Q /\ (u < 1)%Q.
Proof.
  destruct (random_unit_interval s) as (u & Hu & H0 & H1).
  exists u. unfold random.uniform, bind. rewrite Hu.
  split; [reflexivity | split; assumption].
Qed.


(** ** Sampling *)

Ltac split_binds H :=
  repeat match type of H with
         | bind _ _ _ = (Ok _, _) =>
             let v := fresh "v" in
             let s1 := fresh "s" in
             let E := fresh "E" in
             apply bind_ok_inv in H; destruct H as (v & s1 & E & H);
             cbv beta in H
         end.

(** Whatever [generate_shape] returns was drawn from the configured
    ranges; the opacity is the rounding of a uniform draw. *)
Lemma generate_shape_inv (c : PyArtConfig.t) (s s' : random.state)
    (rs : RandomShape.t) :
  RandomShape.generate_shape c s = (Ok rs, s') ->
  RandomShape.config rs = c /\
  In (RandomShape.shape_type rs) (PyArtConfig.shape_type_range c) /\
  in_int_range (RandomShape.radius rs) (PyArtConfig.radius_range c) /\
  in_int_range (RandomShape.width rs) (PyArtConfig.w_h_range c) /\
  in_int_range (RandomShape.height rs) (PyArtConfig.w_h_range c) /\
  in_int_range (RandomShape.rx rs) (PyArtConfig.rxy_range c) /\
  in_int_range (RandomShape.ry rs) (PyArtConfig.rxy_range c) /\
  in_int_range (RandomShape.x rs) (PyArtConfig.x_range c) /\
  in_int_range (RandomShape.y rs) (PyArtConfig.y_range c) /\
  in_int_range (RandomShape.color_r rs) (PyArtConfig.r_range c) /\
  in_int_range (RandomShape.color_g rs) (PyArtConfig.g_range c) /\
  in_int_range (RandomShape.color_b rs) (PyArtConfig.b_range c) /\
  exists u : Q,
    (0 <= u)%Q /\ (u < 1)%Q /\
    RandomShape.opacity rs
      = round_1 (fst (PyArtConfig.opacity_range c)
                 + (snd (PyArtConfig.opacity_range c)
                    - fst (PyArtConfig.opacity_range c)) * u)%Q.
Proof.
  intros H. unfold RandomShape.generate_shape in H.
  split_binds H.
  unfold ret in H. injection H as <- _. simpl.
  repeat match goal with
         | E : random.randint _ _ _ = _ |- _ => apply randint_inv in E
         | E : random.choice _ _ = _ |- _ => apply choice_inv in E
         end.
  unfold in_int_range.
  repeat (split; [assumption || reflexivity |]).
  match goal with
  | E : random.uniform ?a ?b ?s0 = _ |- _ =>
      destruct (uniform_ok a b s0) as (u & Hu & H0 & H1);
      rewrite Hu in E; injection E as <- _
  end.
  exists u. repeat split; assumption.
Qed.

(** With a kind to choose from and every int range non-empty,
    [generate_shape] returns. *)
Lemma generate_shape_ok (c : PyArtConfig.t) (s : random.state) :
  valid_int_ranges c ->
  PyArtConfig.shape_type_range c <> [] ->
  exists rs s', RandomShape.generate_shape c s = (Ok rs, s').
Proof.
  intros (Hx & Hy & Hrad & Hrxy & Hwh & Hr & Hg & Hb) Hne.
  unfold valid_int_range in *.
  unfold RandomShape.generate_shape.
  destruct (choice_ok (PyArtConfig.shape_type_range c) s Hne) as (k & Hk & _).
  unfold bind. rewrite Hk.
  repeat (rewrite randint_ok by assumption).
  match goal with
  | |- context [random.uniform ?a ?b ?s0] =>
      destruct (uniform_ok a b s0) as (u & Hu & _); rewrite Hu
  end.
  eexists. eexists. reflexivity.
Qed.


(** ** C1: sampled attributes and the configured ranges *)


Lemma default_config_valid (canvas : SvgCanvas.t) :
  0 <= SvgCanvas.width canvas -> 0 <= SvgCanvas.height canvas ->
  valid_ranges (PyArtConfig.default canvas).
Proof.
  intros Hw Hh.
  unfold valid_ranges, valid_int_ranges, valid_int_range, valid_real_range.
  simpl. unfold Qle. simpl. lia.
Qed.



(** ** C3: restricting the shape kinds *)

Lemma int_in_kinds (k : Z) :
  int_in k [0; 1; 2] = true <-> (k = 0 \/ k = 1 \/ k = 2).
Proof.
  unfold int_in. simpl.
  destruct (Z.eqb_spec k 0), (Z.eqb_spec k 1), (Z.eqb_spec k 2);
    simpl; split; intros; try lia; try discriminate; reflexivity.
Qed.

(** C3. For a kind k among 0, 1, 2 and any configuration: shapes(k, 1)
    makes the allowed kinds exactly [k], shapes(k, 0) makes them the two
    other kinds, and both leave every range alone; a call whose kind is not
    0, 1 or 2, or whose mode is not 0 or 1, changes nothing; and after
    shapes(k, 1) every shape generate_shape returns has kind k, one being
    returned whenever the int ranges have low <= high. *)
Theorem shapes_restricts_kinds (c : PyArtConfig.t) (k : Z)
    (Hk : k = 0 \/ k = 1 \/ k = 2) :
  PyArtConfig.shapes k 1 c
    = (Ok tt, PyArtConfig.set_shape_type_range [k] c) /\
  PyArtConfig.shapes k 0 c
    = (Ok tt, PyArtConfig.set_shape_type_range (other_kinds k) c) /\
  (forall k' amt : Z,
      ~ (k' = 0 \/ k' = 1 \/ k' = 2) \/ ~ (amt = 0 \/ amt = 1) ->
      PyArtConfig.shapes k' amt c = (Ok tt, c)) /\
  (forall (s : random.state) (rs : RandomShape.t),
      outcome (RandomShape.generate_shape
                 (state_after (PyArtConfig.shapes k 1) c)) s = Ok rs ->
      RandomShape.shape_type rs = k) /\
  (forall s : random.state,
      valid_int_ranges c ->
      exists rs : RandomShape.t,
        outcome (RandomShape.generate_shape
                   (state_after (PyArtConfig.shapes k 1) c)) s = Ok rs /\
        RandomShape.shape_type rs = k).
Proof.
  assert (Honly : PyArtConfig.shapes k 1 c
                  = (Ok tt, PyArtConfig.set_shape_type_range [k] c)).
  { destruct Hk as [-> | [-> | ->]]; reflexivity. }
  assert (Hkind : forall s rs,
             outcome (RandomShape.generate_shape
                        (state_after (PyArtConfig.shapes k 1) c)) s = Ok rs ->
             RandomShape.shape_type rs = k).
  { intros s rs Hout. unfold state_after in Hout. rewrite Honly in Hout.
    unfold outcome in Hout.
    destruct (RandomShape.generate_shape _ s) as [r s'] eqn:Hgen.
    simpl in Hout. subst r.
    apply generate_shape_inv in Hgen.
    destruct Hgen as (_ & Hin & _). simpl in Hin.
    destruct Hin as [<- | []]. reflexivity. }
  split; [exact Honly |].
  split; [destruct Hk as [-> | [-> | ->]]; reflexivity |].
  split; [| split; [exact Hkind |]].
  - intros k' amt Hout. unfold PyArtConfig.shapes.
    destruct (int_in k' [0; 1; 2]) eqn:Hin; [| reflexivity].
    apply int_in_kinds in Hin.
    destruct (Z.eqb_spec amt 1) as [H1 | H1]; [tauto |].
    destruct (Z.eqb_spec amt 0) as [H0 | H0]; [tauto | reflexivity].
  - intros s Hvalid.
    destruct (generate_shape_ok (state_after (PyArtConfig.shapes k 1) c) s)
      as (rs & s' & Hgen).
    + unfold state_after. rewrite Honly. exact Hvalid.
    + unfold state_after. rewrite Honly. simpl. discriminate.
    + assert (Hout : outcome (RandomShape.generate_shape
                                (state_after (PyArtConfig.shapes k 1) c)) s
                     = Ok rs).
      { unfold outcome. rewrite Hgen. reflexivity. }
      exists rs. split; [exact Hout | apply (Hkind s rs Hout)].
Qed.

Lemma shapes_restricts_kinds_witness :
  (1 = 0 \/ 1 = 1 \/ 1 = 2) /\
  PyArtConfig.shapes 1 1 (PyArtConfig.default canvas_200x100)
    = (Ok tt, PyArtConfig.set_shape_type_range [1]
                (PyArtConfig.default canvas_200x100)) /\
  PyArtConfig.shapes 1 0 (PyArtConfig.default canvas_200x100)
    = (Ok tt, PyArtConfig.set_shape_type_range [0; 2]
                (PyArtConfig.default canvas_200x100)).
Proof.
  assert (Hk : 1 = 0 \/ 1 = 1 \/ 1 = 2) by (right; left; reflexivity).
  split; [exact Hk |].
  pose proof (shapes_restricts_kinds
                (PyArtConfig.default canvas_200x100) 1 Hk) as H.
  split; [apply H | apply H].
Defined.

(** ** Printed numbers *)

Lemma string_forall_app (p : ascii -> bool) (a b : string) :
  string_forall p (a ++ b) = string_forall p a && string_forall p b.
Proof.
  induction a as [| c a IH]; simpl.
  - reflexivity.
  - rewrite IH. apply andb_assoc.
Qed.

Lemma string_forall_impl (p q : ascii -> bool) (s : string) :
  (forall c, p c = true -> q c = true) ->
  string_forall p s = true -> string_forall q s = true.
Proof.
  intros Hpq. induction s as [| c s IH]; simpl; [reflexivity |].
  intros H. apply andb_true_iff in H. destruct H as [Hc Hs].
  rewrite (Hpq c Hc), (IH Hs). reflexivity.
Qed.

Lemma uint_digits (d : Decimal.uint) :
  string_forall is_digit (NilEmpty.string_of_uint d) = true.
Proof.
  induction d; simpl; try reflexivity; exact IHd.
Qed.

Lemma nilzero_uint_digits (d : Decimal.uint) :
  string_forall is_digit (NilZero.string_of_uint d) = true.
Proof.
  destruct d; try reflexivity;
    unfold NilZero.string_of_uint; apply uint_digits.
Qed.

(** A non-negative int prints as digits only. *)
Lemma str_int_digits (z : Z) :
  0 <= z -> string_forall is_digit (str_int z) = true.
Proof.
  intros Hz. unfold str_int. destruct z as [| p | p]; [reflexivity | | lia].
  simpl. apply nilzero_uint_digits.
Qed.

Lemma digit_is_num_char (c : ascii) : is_digit c = true -> num_char c = true.
Proof.
  unfold num_char. intros ->. reflexivity.
Qed.

Lemma str_int_numeric (z : Z) : numeric (str_int z).
Proof.
  unfold numeric, str_int. destruct z as [| p | p]; [reflexivity | |].
  - apply (string_forall_impl is_digit); [exact digit_is_num_char |].
    simpl. apply nilzero_uint_digits.
  - simpl. apply (string_forall_impl is_digit); [exact digit_is_num_char |].
    apply nilzero_uint_digits.
Qed.

Lemma str_float_numeric (t : float1) : numeric (str_float t).
Proof.
  unfold numeric, str_float.
  rewrite !string_forall_app.
  rewrite (str_int_numeric (Z.abs t / 10)), (str_int_numeric (Z.abs t mod 10)).
  destruct (t <? 0); reflexivity.
Qed.

(** No printed number holds a space, a newline or a plus sign. *)
Lemma num_char_plain (c : ascii) :
  num_char c = true ->
  (c =? space)%char = false /\ (c =? newline)%char = false /\
  (c =? "+")%char = false.
Proof.
  destruct c as [[|] [|] [|] [|] [|] [|] [|] [|]];
    intros H; try discriminate H; repeat split.
Qed.

Lemma is_digit_plain (c : ascii) :
  is_digit c = true ->
  (c =? ".")%char = false /\ (c =? "-")%char = false.
Proof.
  destruct c as [[|] [|] [|] [|] [|] [|] [|] [|]];
    intros H; try discriminate H; repeat split.
Qed.

(** ** Joining, replacing and splitting *)

Lemma replace_app (old new : ascii) (a b : string) :
  replace old new (a ++ b) = replace old new a ++ replace old new b.
Proof.
  induction a as [| c a IH]; simpl; [reflexivity | rewrite IH; reflexivity].
Qed.

Lemma replace_numeric (s : string) :
  numeric s -> replace newline space s = s.
Proof.
  unfold numeric. induction s as [| c s IH]; simpl; [reflexivity |].
  intros H. apply andb_true_iff in H. destruct H as [Hc Hs].
  destruct (num_char_plain c Hc) as (_ & Hnl & _).
  rewrite Hnl, (IH Hs). reflexivity.
Qed.

(** A field free of the separator, followed by the separator, is split
    off. *)
Lemma split_field (sep : ascii) (a b : string) :
  string_forall (fun c => negb (c =? sep)%char) a = true ->
  split sep (a ++ String sep b) = a :: split sep b.
Proof.
  induction a as [| c a IH]; simpl.
  - intros _. rewrite Ascii.eqb_refl. reflexivity.
  - intros H. apply andb_true_iff in H. destruct H as [Hc Ha].
    apply negb_true_iff in Hc. rewrite Hc, (IH Ha). reflexivity.
Qed.

Lemma split_last_field (sep : ascii) (a : string) :
  string_forall (fun c => negb (c =? sep)%char) a = true ->
  split sep a = [a].
Proof.
  induction a as [| c a IH]; simpl; [reflexivity |].
  intros H. apply andb_true_iff in H. destruct H as [Hc Ha].
  apply negb_true_iff in Hc. rewrite Hc, (IH Ha). reflexivity.
Qed.

Lemma numeric_no_space (s : string) :
  numeric s -> string_forall (fun c => negb (c =? space)%char) s = true.
Proof.
  apply string_forall_impl. intros c Hc.
  destruct (num_char_plain c Hc) as (Hsp & _). rewrite Hsp. reflexivity.
Qed.

Lemma digits_no_point (s : string) :
  string_forall is_digit s = true ->
  string_forall (fun c => negb (c =? ".")%char) s = true.
Proof.
  apply string_forall_impl. intros c Hc.
  destruct (is_digit_plain c Hc) as (Hp & _). rewrite Hp. reflexivity.
Qed.

(** Flattening the lines of numeric fields into one line. *)
Lemma replace_join_numeric (parts : list string) :
  Forall numeric parts ->
  replace newline space (join RandomShape.nl parts)
    = join (String space EmptyString) parts.
Proof.
  induction 1 as [| p rest Hp Hrest IH]; [reflexivity |].
  destruct rest as [| q rest].
  - simpl. apply replace_numeric. exact Hp.
  - change (join RandomShape.nl (p :: q :: rest))
      with (p ++ RandomShape.nl ++ join RandomShape.nl (q :: rest)).
    change (join (String space EmptyString) (p :: q :: rest))
      with (p ++ String space EmptyString
              ++ join (String space EmptyString) (q :: rest)).
    rewrite !replace_app, IH, (replace_numeric p Hp). reflexivity.
Qed.

(** Splitting the flattened line gives the fields back. *)
Lemma split_join_numeric (parts : list string) :
  parts <> [] -> Forall numeric parts ->
  split space (join (String space EmptyString) parts) = parts.
Proof.
  intros Hne Hall. induction Hall as [| p rest Hp Hrest IH]; [contradiction |].
  destruct rest as [| q rest].
  - simpl. apply split_last_field, numeric_no_space. exact Hp.
  - change (join (String space EmptyString) (p :: q :: rest))
      with (p ++ String space (join (String space EmptyString) (q :: rest))).
    rewrite (split_field space p _ (numeric_no_space p Hp)).
    rewrite IH by discriminate. reflexivity.
Qed.

(** ** Parsing what was printed *)

Lemma to_int_proper (z : Z) :
  Z.to_int z <> Decimal.Pos Decimal.Nil /\
  Z.to_int z <> Decimal.Neg Decimal.Nil.
Proof.
  destruct z as [| p | p]; simpl; split; intros H; try discriminate H;
    injection H as H; exact (Unsigned.to_uint_nonnil p H).
Qed.

(** [int(str(z))] is [z]. *)
Lemma parse_int_str_int (z : Z) : parse_int (str_int z) = Ok z.
Proof.
  destruct (to_int_proper z) as [Hpos Hneg].
  pose proof (NilZero.isi (Z.to_int z) Hpos Hneg) as Hisi.
  pose proof (str_int_numeric z) as Hnum.
  unfold parse_int. fold (str_int z) in Hisi.
  destruct (str_int z) as [| c r]; [discriminate Hisi |].
  unfold numeric in Hnum. simpl in Hnum.
  apply andb_true_iff in Hnum. destruct Hnum as [Hc _].
  destruct (num_char_plain c Hc) as (_ & _ & Hplus).
  rewrite Hplus, Hisi, DecimalZ.of_to. reflexivity.
Qed.

Lemma uint_of_str_int (n : Z) :
  0 <= n ->
  exists u, NilZero.uint_of_string (str_int n) = Some u /\ Z.of_uint u = n.
Proof.
  intros Hn. destruct n as [| p | p]; [| | lia].
  - exists (Decimal.D0 Decimal.Nil). split; reflexivity.
  - exists (Pos.to_uint p). split.
    + unfold str_int. simpl.
      apply NilZero.usu, Unsigned.to_uint_nonnil.
    + exact (DecimalZ.of_to (Z.pos p)).
Qed.

Lemma str_int_one_digit (n : Z) :
  0 <= n < 10 -> String.length (str_int n) = 1%nat.
Proof.
  intros Hn. rewrite <- (Z2Nat.id n) by lia.
  assert (Hk : (Z.to_nat n < 10)%nat) by lia.
  revert Hk. generalize (Z.to_nat n). intros k Hk.
  do 10 (destruct k as [| k]; [reflexivity |]). lia.
Qed.

Lemma parse_unsigned_float_printed (a : Z) :
  0 <= a ->
  parse_unsigned_float (str_int (a / 10) ++ "." ++ str_int (a mod 10))
    = Some a.
Proof.
  intros Ha.
  assert (Hq : 0 <= a / 10) by (apply Z.div_pos; lia).
  assert (Hr : 0 <= a mod 10 < 10) by (apply Z.mod_pos_bound; lia).
  unfold parse_unsigned_float.
  change ("." ++ str_int (a mod 10)) with (String "."%char (str_int (a mod 10))).
  rewrite split_field by (apply digits_no_point, str_int_digits; exact Hq).
  rewrite split_last_field
    by (apply digits_no_point, str_int_digits; apply Hr).
  destruct (uint_of_str_int (a / 10) Hq) as (u & Hu & Hu').
  destruct (uint_of_str_int (a mod 10) (proj1 Hr)) as (v & Hv & Hv').
  rewrite Hu, Hv, (str_int_one_digit _ Hr), Hu', Hv', Nat.eqb_refl.
  f_equal. pose proof (Z.div_mod a 10 ltac:(lia)). lia.
Qed.

(** [float(str(f))] is [f] for a one-decimal float. *)
Lemma parse_float_str_float (t : float1) : parse_float (str_float t) = Ok t.
Proof.
  unfold parse_float, str_float.
  pose proof (parse_unsigned_float_printed (Z.abs t) (Z.abs_nonneg t)) as Hp.
  destruct (Z.ltb_spec t 0) as [Hneg | Hpos].
  - change ("-" ++ str_int (Z.abs t / 10) ++ "." ++ str_int (Z.abs t mod 10))
      with (String "-"%char
              (str_int (Z.abs t / 10) ++ "." ++ str_int (Z.abs t mod 10))).
    cbv iota. rewrite Ascii.eqb_refl, Hp. simpl.
    unfold float1 in *. f_equal. lia.
  - change (EmptyString ++ str_int (Z.abs t / 10) ++ "."
              ++ str_int (Z.abs t mod 10))
      with (str_int (Z.abs t / 10) ++ "." ++ str_int (Z.abs t mod 10)).
    assert (Hq : 0 <= Z.abs t / 10) by (apply Z.div_pos; lia).
    pose proof (str_int_digits _ Hq) as Hdig.
    destruct (uint_of_str_int _ Hq) as (u & Hu & _).
    destruct (str_int (Z.abs t / 10)) as [| c r]; [discriminate Hu |].
    simpl in Hdig. apply andb_true_iff in Hdig. destruct Hdig as [Hc _].
    destruct (is_digit_plain c Hc) as (_ & Hminus).
    simpl append in *. cbv iota. rewrite Hminus, Hp.
    unfold float1 in *. f_equal. lia.
Qed.

(** ** C10: the round trip inside as_svg *)

(** The twelve printed attributes, in the order of [__str__]. *)
Lemma str_is_join (rs : RandomShape.t) :
  RandomShape.__str__ rs =
  join RandomShape.nl
    [ str_int (RandomShape.shape_type rs); str_int (RandomShape.x rs);
      str_int (RandomShape.y rs); str_int (RandomShape.radius rs);
      str_int (RandomShape.width rs); str_int (RandomShape.height rs);
      str_int (RandomShape.rx rs); str_int (RandomShape.ry rs);
      str_int (RandomShape.color_r rs); str_int (RandomShape.color_g rs);
      str_int (RandomShape.color_b rs); str_float (RandomShape.opacity rs) ].
Proof.
  reflexivity.
Qed.

(** Splitting the flattened line at the spaces gives the twelve printed
    attributes. *)
Lemma split_as_Part2_line (rs : RandomShape.t) :
  split space (RandomShape.as_Part2_line rs) =
    [ str_int (RandomShape.shape_type rs); str_int (RandomShape.x rs);
      str_int (RandomShape.y rs); str_int (RandomShape.radius rs);
      str_int (RandomShape.width rs); str_int (RandomShape.height rs);
      str_int (RandomShape.rx rs); str_int (RandomShape.ry rs);
      str_int (RandomShape.color_r rs); str_int (RandomShape.color_g rs);
      str_int (RandomShape.color_b rs); str_float (RandomShape.opacity rs) ].
Proof.
  unfold RandomShape.as_Part2_line. rewrite str_is_join.
  assert (Hall : Forall numeric
            [ str_int (RandomShape.shape_type rs); str_int (RandomShape.x rs);
              str_int (RandomShape.y rs); str_int (RandomShape.radius rs);
              str_int (RandomShape.width rs); str_int (RandomShape.height rs);
              str_int (RandomShape.rx rs); str_int (RandomShape.ry rs);
              str_int (RandomShape.color_r rs);
              str_int (RandomShape.color_g rs);
              str_int (RandomShape.color_b rs);
              str_float (RandomShape.opacity rs) ]).
  { repeat constructor; apply str_int_numeric || apply str_float_numeric. }
  rewrite (replace_join_numeric _ Hall).
  apply split_join_numeric; [discriminate | exact Hall].
Qed.

(** The data list of [as_svg] holds the sampled attributes. *)
Lemma as_svg_data_ok (rs : RandomShape.t) :
  RandomShape.as_svg_data rs =
  Ok [ PInt (RandomShape.x rs); PInt (RandomShape.y rs);
       PInt (RandomShape.radius rs); PInt (RandomShape.width rs);
       PInt (RandomShape.height rs); PInt (RandomShape.rx rs);
       PInt (RandomShape.ry rs); PInt (RandomShape.color_r rs);
       PInt (RandomShape.color_g rs); PInt (RandomShape.color_b rs);
       PFloat (RandomShape.opacity rs) ].
Proof.
  unfold RandomShape.as_svg_data. rewrite split_as_Part2_line.
  cbn [slice_1_m1 tl removelast map_result and_then].
  rewrite !parse_int_str_int. cbn [and_then].
  change (getitem _ (-1)) with (Ok (str_float (RandomShape.opacity rs))).
  cbn [and_then]. rewrite parse_float_str_float. reflexivity.
Qed.

Lemma as_svg_shape_ok (rs : RandomShape.t) :
  RandomShape.as_svg_shape rs
    = Ok (class_of (RandomShape.shape_type rs) (fields_of rs)).
Proof.
  unfold RandomShape.as_svg_shape, class_of. rewrite as_svg_data_ok.
  cbn [and_then from_positional].
  destruct (RandomShape.shape_type rs =? 0); [reflexivity |].
  destruct (RandomShape.shape_type rs =? 1); reflexivity.
Qed.

(** C10. For every sampled shape, whatever its int attributes and its
    one-decimal opacity, as_svg rebuilds from the flattened line a shape
    tuple whose x, y, rad, width, height, rx, ry, red, green, blue and op
    fields are the sampled x, y, radius, width, height, rx, ry, color_r,
    color_g, color_b and opacity: a circle for kind 0, a rectangle for
    kind 1, an ellipse otherwise. *)
Theorem as_svg_round_trip (rs : RandomShape.t) :
  exists f : fields,
    RandomShape.as_svg_shape rs
      = Ok (if RandomShape.shape_type rs =? 0 then Circle f
            else if RandomShape.shape_type rs =? 1 then Rectangle f
            else Ellipse f) /\
    RandomShape.as_svg rs
      = Ok (draw (if RandomShape.shape_type rs =? 0 then Circle f
                  else if RandomShape.shape_type rs =? 1 then Rectangle f
                  else Ellipse f) 2) /\
    ShapeFields.x f = PInt (RandomShape.x rs) /\
    ShapeFields.y f = PInt (RandomShape.y rs) /\
    ShapeFields.rad f = PInt (RandomShape.radius rs) /\
    ShapeFields.width f = PInt (RandomShape.width rs) /\
    ShapeFields.height f = PInt (RandomShape.height rs) /\
    ShapeFields.rx f = PInt (RandomShape.rx rs) /\
    ShapeFields.ry f = PInt (RandomShape.ry rs) /\
    ShapeFields.red f = PInt (RandomShape.color_r rs) /\
    ShapeFields.green f = PInt (RandomShape.color_g rs) /\
    ShapeFields.blue f = PInt (RandomShape.color_b rs) /\
    ShapeFields.op f = PFloat (RandomShape.opacity rs).
Proof.
  exists (fields_of rs).
  assert (Hshape : RandomShape.as_svg_shape rs
                   = Ok (if RandomShape.shape_type rs =? 0
                         then Circle (fields_of rs)
                         else if RandomShape.shape_type rs =? 1
                              then Rectangle (fields_of rs)
                              else Ellipse (fields_of rs))).
  { rewrite as_svg_shape_ok. unfold class_of.
    destruct (RandomShape.shape_type rs =? 0); [reflexivity |].
    destruct (RandomShape.shape_type rs =? 1); reflexivity. }
  split; [exact Hshape |].
  split; [unfold RandomShape.as_svg; rewrite Hshape; reflexivity |].
  repeat split.
Qed.

(** ** C2: the fixed circle, end to end *)





(** ** C9: the table of sampled shapes *)

(** The frame [gen_df] builds for the line of one sampled shape. *)
Lemma gen_df_single (rs : RandomShape.t) :
  TableGen.gen_df [RandomShape.as_Part2_line rs]
    = Ok {| columns := "CNT" :: TableGen.headers;
            rows := [table_row 0 rs] |}.
Proof.
  unfold TableGen.gen_df. cbn [map]. rewrite split_as_Part2_line.
  reflexivity.
Qed.

(** C9 on the code. The table has the thirteen columns in the documented
    order, but for the line of every sampled shape the cell under 'RX'
    holds the printed width, the cell under 'RY' the height, the cell under
    'W' the rx and the cell under 'H' the ry: the headers name the four
    size columns in another order than the line carries them. For the
    rectangle sampled from the default configuration (width 27, rx 10) the
    cell under 'RX' is 27, not 10. *)
Theorem gen_df_mislabels_size_columns :
  (forall rs : RandomShape.t,
      exists (df : DataFrame) (row : list cell),
        TableGen.gen_df [RandomShape.as_Part2_line rs] = Ok df /\
        columns df = ["CNT"; "SHA"; "X"; "Y"; "RAD"; "RX"; "RY"; "W"; "H";
                      "R"; "G"; "B"; "OP"] /\
        rows df = [row] /\
        cell_under (columns df) "RX" row
          = Ok (CStr (str_int (RandomShape.width rs))) /\
        cell_under (columns df) "RY" row
          = Ok (CStr (str_int (RandomShape.height rs))) /\
        cell_under (columns df) "W" row
          = Ok (CStr (str_int (RandomShape.rx rs))) /\
        cell_under (columns df) "H" row
          = Ok (CStr (str_int (RandomShape.ry rs)))) /\
  outcome (RandomShape.__init__ (PyArtConfig.default canvas_200x100))
          mixed_source = Ok sampled_rectangle /\
  (exists (df : DataFrame) (row : list cell),
      TableGen.gen_df [RandomShape.as_Part2_line sampled_rectangle] = Ok df /\
      rows df = [row] /\
      cell_under (columns df) "RX" row = Ok (CStr "27") /\
      str_int (RandomShape.rx sampled_rectangle) = "10" /\
      cell_under (columns df) "W" row = Ok (CStr "10") /\
      str_int (RandomShape.width sampled_rectangle) = "27").
Proof.
  split; [| split].
  - intros rs. eexists. eexists.
    split; [apply gen_df_single |].
    repeat split.
  - vm_compute. reflexivity.
  - eexists. eexists.
    split; [apply gen_df_single |].
    repeat split.
Qed.


(** * Further properties of the configuration *)

(** An item read from a list is one of its items. *)
Lemma getitem_In {A : Type} (l : list A) (i : Z) (a : A) :
  getitem l i = Ok a -> In a l.
Proof.
  unfold getitem.
  destruct ((0 <=? (if i <? 0 then i + Z.of_nat (length l) else i))
            && ((if i <? 0 then i + Z.of_nat (length l) else i)
                <? Z.of_nat (length l))); [| discriminate].
  destruct (nth_error l _) as [b |] eqn:Hnth; [| discriminate].
  intros H. injection H as <-. eapply nth_error_In. eassumption.
Qed.

(** Every entry of the size table is one of the nine documented bands. *)
Lemma size_ranges_entry (k : string * string) (name : string) (v : Z * Z) :
  dict_get pair_eqb PyArtConfig.size_ranges k = Some (name, v) ->
  In (name, v)
     [ ("radius_range", (0, 33)); ("w_h_range", (10, 40));
       ("rxy_range", (10, 17)); ("radius_range", (33, 66));
       ("w_h_range", (40, 70)); ("rxy_range", (17, 24));
       ("radius_range", (66, 100)); ("w_h_range", (70, 100));
       ("rxy_range", (24, 30)) ].
Proof.
  unfold PyArtConfig.size_ranges. simpl.
  repeat match goal with
         | |- context [pair_eqb ?a ?b] => destruct (pair_eqb a b)
         end;
    intros H; inversion H; tauto.
Qed.

Lemma call_keeps_samplable (p : preset_call) (c : PyArtConfig.t) :
  samplable c -> samplable (state_after (call p) c).
Proof.
  destruct p as [shape amt | shape_sizes | color_amounts | amt]; simpl call.
  - intros [Hv Hne]. unfold PyArtConfig.shapes.
    destruct (int_in shape [0; 1; 2]) eqn:Hin; [| split; assumption].
    apply int_in_kinds in Hin.
    destruct (amt =? 1); [split; [exact Hv | discriminate] |].
    destruct (amt =? 0); [| split; assumption].
    destruct Hin as [-> | [-> | ->]]; split; try exact Hv; discriminate.
  - unfold PyArtConfig.size. apply for_each_preserves.
    intros item s Hs.
    destruct (dict_get pair_eqb PyArtConfig.size_ranges (fst item, snd item))
      as [[name v] |] eqn:Hget; [| exact Hs].
    destruct (0 <? String.length name)%nat; [| exact Hs].
    apply size_ranges_entry in Hget. simpl in Hget.
    destruct Hs as [[Hints Hop] Hne].
    unfold valid_int_ranges, valid_int_range in Hints.
    repeat match goal with
           | H : _ \/ _ |- _ => destruct H as [H | H]
           | H : (_, _) = (_, _) |- _ => injection H as <- <-
           | H : False |- _ => destruct H
           end;
      (split; [split; [| exact Hop] | exact Hne]);
      unfold valid_int_ranges, valid_int_range; simpl; lia.
  - unfold PyArtConfig.color. apply for_each_preserves.
    intros item s Hs.
    assert (Hband : forall v, getitem PyArtConfig.color_ranges (snd item) = Ok v ->
                              fst v <= snd v).
    { intros v Hv. apply getitem_In in Hv. simpl in Hv.
      repeat match goal with
             | H : _ \/ _ |- _ => destruct H as [H | H]
             | H : (_, _) = _ |- _ => rewrite <- H
             | H : False |- _ => destruct H
             end; simpl; lia. }
    destruct Hs as [[Hints Hop] Hne].
    unfold valid_int_ranges, valid_int_range in Hints.
    destruct (fst item =? "r")%string;
      [| destruct (fst item =? "g")%string;
         [| destruct (fst item =? "b")%string;
            [| split; [split |]; assumption]]];
      unfold state_after, bind, lift;
      destruct (getitem PyArtConfig.color_ranges (snd item)) as [v | e] eqn:Hg;
      try (split; [split |]; assumption);
      specialize (Hband v eq_refl);
      (split; [split; [| exact Hop] | exact Hne]);
      unfold valid_int_ranges, valid_int_range; simpl; lia.
  - intros [[Hints Hop] Hne]. unfold PyArtConfig.op_amt.
    destruct (int_in amt [0; 1; 2; 3]); [| split; [split |]; assumption].
    unfold state_after, bind, lift.
    destruct (getitem PyArtConfig.opacity_ranges amt) as [v | e] eqn:Hg;
      [| split; [split |]; assumption].
    apply getitem_In in Hg. simpl in Hg.
    split; [split; [exact Hints |] | exact Hne].
    unfold valid_real_range. simpl.
    repeat match goal with
           | H : _ \/ _ |- _ => destruct H as [H | H]
           | H : (_, _) = _ |- _ => rewrite <- H
           | H : False |- _ => destruct H
           end; simpl; unfold Qle; simpl; lia.
Qed.

Lemma run_calls_keeps_samplable (calls : list preset_call) (c : PyArtConfig.t) :
  samplable c -> samplable (state_after (run_calls calls) c).
Proof.
  unfold run_calls. apply for_each_preserves.
  intros p s. apply call_keeps_samplable.
Qed.

(** X1. The presets keep a configuration fit for sampling: if every range
    has low <= high and at least one kind is allowed, the same holds after
    any sequence of shapes, size, color and op_amt calls, whatever their
    arguments and whether or not one of them raises. *)
Theorem presets_keep_ranges_valid (c : PyArtConfig.t)
    (calls : list preset_call)
    (Hv : valid_ranges c) (Hne : PyArtConfig.shape_type_range c <> []) :
  valid_ranges (state_after (run_calls calls) c) /\
  PyArtConfig.shape_type_range (state_after (run_calls calls) c) <> [].
Proof.
  apply (run_calls_keeps_samplable calls c). split; assumption.
Qed.

Lemma presets_keep_ranges_valid_witness :
  valid_ranges
    (state_after (run_calls (CallOpAmt 9 :: CallColor [("r", 8)] :: matrix_calls))
                 (PyArtConfig.default canvas_200x100)) /\
  PyArtConfig.shape_type_range
    (state_after (run_calls (CallOpAmt 9 :: CallColor [("r", 8)] :: matrix_calls))
                 (PyArtConfig.default canvas_200x100)) <> [].
Proof.
  apply (presets_keep_ranges_valid (PyArtConfig.default canvas_200x100)).
  - apply default_config_valid; simpl; lia.
  - simpl. discriminate.
Defined.

(** X2. On the configuration of a canvas whose width and height are not
    negative, sampling cannot fail after presets: whatever preset calls
    were made and whatever the random source draws, generate_shape returns
    a shape. *)
Theorem sampling_after_presets_returns (canvas : SvgCanvas.t)
    (calls : list preset_call) (s : random.state)
    (Hw : 0 <= SvgCanvas.width canvas) (Hh : 0 <= SvgCanvas.height canvas) :
  exists rs : RandomShape.t,
    outcome (RandomShape.generate_shape
               (state_after (run_calls calls) (PyArtConfig.default canvas))) s
    = Ok rs.
Proof.
  destruct (run_calls_keeps_samplable calls (PyArtConfig.default canvas))
    as [[Hints _] Hne].
  { split; [apply default_config_valid; assumption | simpl; discriminate]. }
  destruct (generate_shape_ok _ s Hints Hne) as (rs & s' & Hgen).
  exists rs. unfold outcome. rewrite Hgen. reflexivity.
Qed.

Lemma sampling_after_presets_returns_witness :
  exists rs : RandomShape.t,
    outcome (RandomShape.generate_shape
               (state_after (run_calls matrix_calls)
                            (PyArtConfig.default canvas_200x100)))
            mixed_source
    = Ok rs.
Proof.
  apply (sampling_after_presets_returns canvas_200x100 matrix_calls
           mixed_source); simpl; lia.
Defined.

(** X3. A later restriction replaces an earlier one, it does not
    intersect with it: after any shapes call, a shapes call with a kind
    among 0, 1, 2 and a mode among 0, 1 leaves the configuration exactly as
    if it had been the only call; likewise an op_amt call with a level from
    0 to 3 after any other op_amt call. *)
Theorem later_restriction_replaces (c : PyArtConfig.t)
    (k1 m1 k2 m2 a1 a2 : Z)
    (Hk : k2 = 0 \/ k2 = 1 \/ k2 = 2) (Hm : m2 = 0 \/ m2 = 1)
    (Ha : 0 <= a2 <= 3) :
  state_after (PyArtConfig.shapes k2 m2) (state_after (PyArtConfig.shapes k1 m1) c)
    = state_after (PyArtConfig.shapes k2 m2) c /\
  state_after (PyArtConfig.op_amt a2) (state_after (PyArtConfig.op_amt a1) c)
    = state_after (PyArtConfig.op_amt a2) c.
Proof.
  split.
  - assert (Hfst : state_after (PyArtConfig.shapes k1 m1) c = c \/
                   exists l, state_after (PyArtConfig.shapes k1 m1) c
                             = PyArtConfig.set_shape_type_range l c).
    { unfold PyArtConfig.shapes.
      destruct (int_in k1 [0; 1; 2]); [| left; reflexivity].
      destruct (m1 =? 1); [right; eexists; reflexivity |].
      destruct (m1 =? 0); [right; eexists; reflexivity | left; reflexivity]. }
    destruct Hfst as [-> | [l ->]]; [reflexivity |].
    destruct Hk as [-> | [-> | ->]], Hm as [-> | ->]; reflexivity.
  - assert (Hfst : state_after (PyArtConfig.op_amt a1) c = c \/
                   exists v, state_after (PyArtConfig.op_amt a1) c
                             = PyArtConfig.set_opacity_range v c).
    { unfold PyArtConfig.op_amt.
      destruct (int_in a1 [0; 1; 2; 3]); [| left; reflexivity].
      unfold state_after, bind, lift.
      destruct (getitem PyArtConfig.opacity_ranges a1);
        [right; eexists; reflexivity | left; reflexivity]. }
    destruct Hfst as [-> | [v ->]]; [reflexivity |].
    assert (a2 = 0 \/ a2 = 1 \/ a2 = 2 \/ a2 = 3)
      as [-> | [-> | [-> | ->]]] by lia; reflexivity.
Qed.

Lemma later_restriction_replaces_witness :
  state_after (PyArtConfig.shapes 2 0)
              (state_after (PyArtConfig.shapes 0 1)
                           (PyArtConfig.default canvas_200x100))
    = state_after (PyArtConfig.shapes 2 0) (PyArtConfig.default canvas_200x100) /\
  PyArtConfig.shape_type_range
    (state_after (PyArtConfig.shapes 2 0)
                 (state_after (PyArtConfig.shapes 0 1)
                              (PyArtConfig.default canvas_200x100)))
    = [0; 1].
Proof.
  split; [| reflexivity].
  apply (later_restriction_replaces (PyArtConfig.default canvas_200x100)
           0 1 2 0 0 0); lia.
Defined.

(** A loop whose iterations all return, returns. *)
Lemma for_each_returns {S A : Type} (body : A -> M S unit) (xs : list A) :
  (forall a s, In a xs -> outcome (body a) s = Ok tt) ->
  forall s, outcome (for_each xs body) s = Ok tt.
Proof.
  induction xs as [| a rest IH]; intros Hbody s; [reflexivity |].
  simpl for_each. unfold outcome, bind.
  pose proof (Hbody a s (or_introl eq_refl)) as Ha. unfold outcome in Ha.
  destruct (body a s) as [r s']. simpl in Ha. subst r.
  apply IH. intros b s0 Hb. apply Hbody. right. exact Hb.
Qed.

(** A loop over two lists in a row: the second part runs on the state the
    first part left, unless the first part raised. *)
Lemma for_each_app {S A : Type} (body : A -> M S unit) (xs ys : list A) (s : S) :
  for_each (xs ++ ys)%list body s =
  match for_each xs body s with
  | (Ok _, s') => for_each ys body s'
  | (Raise e, s') => (Raise e, s')
  end.
Proof.
  revert s. induction xs as [| a rest IH]; intros s; [reflexivity |].
  simpl. unfold bind. destruct (body a s) as [[[] | e] s']; [apply IH | reflexivity].
Qed.

(** X4. size never raises, whatever dict it is given, and it writes
    nothing but the three size ranges: the allowed kinds, the position
    ranges, the colour ranges and the opacity range are as before. *)
Theorem size_returns_and_keeps_other_ranges
    (shape_sizes : dict string string) (c : PyArtConfig.t) :
  outcome (PyArtConfig.size shape_sizes) c = Ok tt /\
  let c' := state_after (PyArtConfig.size shape_sizes) c in
  PyArtConfig.shape_type_range c' = PyArtConfig.shape_type_range c /\
  PyArtConfig.x_range c' = PyArtConfig.x_range c /\
  PyArtConfig.y_range c' = PyArtConfig.y_range c /\
  PyArtConfig.r_range c' = PyArtConfig.r_range c /\
  PyArtConfig.g_range c' = PyArtConfig.g_range c /\
  PyArtConfig.b_range c' = PyArtConfig.b_range c /\
  PyArtConfig.opacity_range c' = PyArtConfig.opacity_range c.
Proof.
  split.
  - unfold PyArtConfig.size. apply for_each_returns. intros item s _.
    destruct (dict_get pair_eqb PyArtConfig.size_ranges (fst item, snd item))
      as [[name v] |]; [| reflexivity].
    destruct (0 <? String.length name)%nat; reflexivity.
  - cbv zeta. unfold PyArtConfig.size.
    apply (for_each_preserves
             (fun s =>
                PyArtConfig.shape_type_range s = PyArtConfig.shape_type_range c /\
                PyArtConfig.x_range s = PyArtConfig.x_range c /\
                PyArtConfig.y_range s = PyArtConfig.y_range c /\
                PyArtConfig.r_range s = PyArtConfig.r_range c /\
                PyArtConfig.g_range s = PyArtConfig.g_range c /\
                PyArtConfig.b_range s = PyArtConfig.b_range c /\
                PyArtConfig.opacity_range s = PyArtConfig.opacity_range c));
      [| repeat split].
    intros item s Hs.
    destruct (dict_get pair_eqb PyArtConfig.size_ranges (fst item, snd item))
      as [[name v] |] eqn:Hget; [| exact Hs].
    destruct (0 <? String.length name)%nat; [| exact Hs].
    apply size_ranges_hit in Hget.
    destruct Hget as [-> | [-> | ->]]; exact Hs.
Qed.

(** X5. color writes nothing but the three colour ranges, whether it
    returns or raises: the allowed kinds, the position ranges, the three
    size ranges and the opacity range are as before. *)
Theorem color_keeps_other_ranges
    (color_amounts : dict string Z) (c : PyArtConfig.t) :
  let c' := state_after (PyArtConfig.color color_amounts) c in
  PyArtConfig.shape_type_range c' = PyArtConfig.shape_type_range c /\
  PyArtConfig.x_range c' = PyArtConfig.x_range c /\
  PyArtConfig.y_range c' = PyArtConfig.y_range c /\
  PyArtConfig.radius_range c' = PyArtConfig.radius_range c /\
  PyArtConfig.rxy_range c' = PyArtConfig.rxy_range c /\
  PyArtConfig.w_h_range c' = PyArtConfig.w_h_range c /\
  PyArtConfig.opacity_range c' = PyArtConfig.opacity_range c.
Proof.
  cbv zeta. unfold PyArtConfig.color.
  apply (for_each_preserves
           (fun s =>
              PyArtConfig.shape_type_range s = PyArtConfig.shape_type_range c /\
              PyArtConfig.x_range s = PyArtConfig.x_range c /\
              PyArtConfig.y_range s = PyArtConfig.y_range c /\
              PyArtConfig.radius_range s = PyArtConfig.radius_range c /\
              PyArtConfig.rxy_range s = PyArtConfig.rxy_range c /\
              PyArtConfig.w_h_range s = PyArtConfig.w_h_range c /\
              PyArtConfig.opacity_range s = PyArtConfig.opacity_range c));
    [| repeat split].
  intros item s Hs.
  destruct (fst item =? "r")%string;
    [| destruct (fst item =? "g")%string;
       [| destruct (fst item =? "b")%string; [| exact Hs]]];
    unfold state_after, bind, lift;
    destruct (getitem PyArtConfig.color_ranges (snd item)); exact Hs.
Qed.

(** [color] returns when every level it has to look up can index the
    band list. *)
Lemma color_returns (color_amounts : dict string Z) (c : PyArtConfig.t) :
  Forall (fun item => is_channel (fst item) = false \/ level_ok (snd item))
         color_amounts ->
  outcome (PyArtConfig.color color_amounts) c = Ok tt.
Proof.
  intros Hall. unfold PyArtConfig.color. apply for_each_returns.
  intros item s Hin.
  rewrite Forall_forall in Hall. specialize (Hall _ Hin). cbv beta zeta.
  assert (Hget : is_channel (fst item) = true -> exists v,
               getitem PyArtConfig.color_ranges (snd item) = Ok v).
  { intros Hch. destruct Hall as [Hno | Hlv].
    - rewrite Hch in Hno. discriminate.
    - unfold level_ok in Hlv. destruct (Z_lt_le_dec (snd item) 0).
      + eexists. apply getitem_color_ranges_negative. lia.
      + eexists. apply getitem_color_ranges_nonneg. lia. }
  unfold is_channel in Hget.
  destruct (fst item =? "r")%string; [| destruct (fst item =? "g")%string;
    [| destruct (fst item =? "b")%string; [| reflexivity]]];
    destruct (Hget eq_refl) as (v & Hv);
    unfold outcome, bind, lift; rewrite Hv; reflexivity.
Qed.

(** X6. color returns normally whenever every item either has a key that
    is no channel or has a level from -5 to 4; levels 0 to 4 in
    particular never raise. *)
Theorem color_returns_on_indexable_levels
    (color_amounts : dict string Z) (c : PyArtConfig.t)
    (Hall : Forall (fun item =>
                      is_channel (fst item) = false \/ level_ok (snd item))
                   color_amounts) :
  outcome (PyArtConfig.color color_amounts) c = Ok tt.
Proof.
  apply color_returns. exact Hall.
Qed.

Lemma color_returns_on_indexable_levels_witness :
  outcome (PyArtConfig.color [("g", 3); ("r", 0); ("x", 99); ("b", -2)])
          (PyArtConfig.default canvas_200x100) = Ok tt.
Proof.
  apply color_returns_on_indexable_levels.
  repeat (apply Forall_cons || apply Forall_nil);
    first [left; reflexivity | right; unfold level_ok; simpl; lia].
Defined.

(** X7. color stops at the first channel item whose level is below -5 or
    above 4: it raises IndexError, the items before it have been applied,
    and the items after it have not. *)
Theorem color_stops_at_first_bad_level
    (before after : dict string Z) (ch : string) (level : Z)
    (c : PyArtConfig.t)
    (Hbefore : Forall (fun item =>
                         is_channel (fst item) = false \/ level_ok (snd item))
                      before)
    (Hch : is_channel ch = true) (Hlevel : ~ level_ok level) :
  PyArtConfig.color (before ++ (ch, level) :: after)%list c
    = (Raise IndexError, state_after (PyArtConfig.color before) c).
Proof.
  pose proof (color_returns before c Hbefore) as Hret.
  unfold PyArtConfig.color in *. rewrite for_each_app.
  unfold outcome, state_after in *.
  destruct (for_each before _ c) as [r s']. simpl in Hret. subst r.
  cbn [for_each fst snd snd]. unfold bind, lift.
  rewrite (getitem_color_ranges_outside level)
    by (unfold level_ok in Hlevel; lia).
  unfold is_channel in Hch.
  destruct (ch =? "r")%string; [reflexivity |].
  destruct (ch =? "g")%string; [reflexivity |].
  destruct (ch =? "b")%string; [reflexivity | discriminate Hch].
Qed.

Lemma color_stops_at_first_bad_level_witness :
  PyArtConfig.color [("r", 0); ("g", 7); ("b", 0)]
                    (PyArtConfig.default canvas_200x100)
    = (Raise IndexError,
       PyArtConfig.set_r_range (0, 0) (PyArtConfig.default canvas_200x100)).
Proof.
  apply (color_stops_at_first_bad_level [("r", 0)] [("b", 0)] "g" 7
           (PyArtConfig.default canvas_200x100)).
  - apply Forall_cons; [| apply Forall_nil].
    right. unfold level_ok. simpl. lia.
  - reflexivity.
  - unfold level_ok. lia.
Defined.

(** * Further properties of sampling *)







(** X9. How generate_shape fails. With no allowed kind it raises
    IndexError before any draw is made. With an allowed kind and an int
    range whose low exceeds its high it raises ValueError. The opacity
    range plays no part in either. *)
Theorem generate_shape_failures (c : PyArtConfig.t) (s : random.state) :
  (PyArtConfig.shape_type_range c = [] ->
   RandomShape.generate_shape c s = (Raise IndexError, s)) /\
  (PyArtConfig.shape_type_range c <> [] -> ~ valid_int_ranges c ->
   outcome (RandomShape.generate_shape c) s = Raise ValueError).
Proof.
  split.
  - intros Hnil. unfold RandomShape.generate_shape. rewrite Hnil. reflexivity.
  - intros Hne Hinv. unfold RandomShape.generate_shape.
    destruct (choice_ok (PyArtConfig.shape_type_range c) s Hne) as (k & Hk & _).
    unfold outcome, bind at 1. rewrite Hk.
    unfold random.randint.
    repeat match goal with
           | |- context [0 <? ?w] => destruct (Z.ltb_spec 0 w)
           end; try reflexivity.
    exfalso. apply Hinv.
    unfold valid_int_ranges, valid_int_range. lia.
Qed.

Lemma generate_shape_failures_witness :
  outcome (RandomShape.generate_shape inverted_radius_config) mixed_source
    = Raise ValueError.
Proof.
  apply (generate_shape_failures inverted_radius_config mixed_source).
  - simpl. discriminate.
  - unfold valid_int_ranges, valid_int_range. simpl. lia.
Defined.



(** * Further properties of rendering *)

Lemma append_assoc (a b c : string) : (a ++ b) ++ c = a ++ b ++ c.
Proof.
  induction a as [| ch a IH]; simpl; [reflexivity | rewrite IH; reflexivity].
Qed.

(** Drawing the tuple rebuilt from a sampled shape gives the indentation
    followed by the element of its kind. *)
Lemma draw_class_of (rs : RandomShape.t) (indent_level : Z) :
  draw (class_of (RandomShape.shape_type rs) (fields_of rs)) indent_level
    = str_mul "   " indent_level ++ element_text rs.
Proof.
  unfold class_of, element_text.
  destruct (RandomShape.shape_type rs =? 0);
    [| destruct (RandomShape.shape_type rs =? 1)];
    unfold draw, CircleShape.draw, RectangleShape.draw, EllipseShape.draw,
      fill_attrs, fields_of, circle_text, rect_text, ellipse_text, fill_text,
      quoted, str;
    cbn [ShapeFields.x ShapeFields.y ShapeFields.rad ShapeFields.width
         ShapeFields.height ShapeFields.rx ShapeFields.ry ShapeFields.red
         ShapeFields.green ShapeFields.blue ShapeFields.op];
    f_equal; repeat rewrite append_assoc; reflexivity.
Qed.



Lemma length_append (a b : string) :
  String.length (a ++ b) = (String.length a + String.length b)%nat.
Proof.
  induction a as [| ch a IH]; simpl; [reflexivity | rewrite IH; reflexivity].
Qed.

Lemma repeat_string_length (s : string) (n : nat) :
  String.length (repeat_string s n) = (n * String.length s)%nat.
Proof.
  induction n as [| n IH]; simpl; [reflexivity |].
  rewrite length_append, IH. reflexivity.
Qed.

Lemma draw_prefix (sh : Shape) (indent_level : Z) :
  draw sh indent_level = str_mul "   " indent_level ++ draw sh 0.
Proof.
  destruct sh; reflexivity.
Qed.

(** X12. The indentation level changes nothing but the prefix of a drawn
    fragment: the fragment is three spaces per level followed by the
    fragment of level 0, and a level of zero or below gives no prefix at
    all. *)
Theorem draw_indentation (sh : Shape) (indent_level : Z) :
  draw sh indent_level = str_mul "   " indent_level ++ draw sh 0 /\
  String.length (draw sh indent_level)
    = (3 * Z.to_nat indent_level + String.length (draw sh 0))%nat /\
  (indent_level <= 0 -> draw sh indent_level = draw sh 0).
Proof.
  split; [apply draw_prefix |]. split.
  - rewrite draw_prefix, length_append. unfold str_mul.
    rewrite repeat_string_length. simpl String.length. lia.
  - intros Hle. rewrite draw_prefix. unfold str_mul.
    replace (Z.to_nat indent_level) with O by lia. reflexivity.
Qed.

Lemma draw_indentation_witness :
  draw (Circle (fields_of sampled_rectangle)) (-4)
    = draw (Circle (fields_of sampled_rectangle)) 0.
Proof.
  apply (draw_indentation (Circle (fields_of sampled_rectangle)) (-4)). lia.
Defined.

(** X13. The flattened line of a sampled shape is its twelve printed
    attributes (kind, x, y, radius, width, height, rx, ry, red, green,
    blue, opacity) separated by single spaces: it holds no newline, and
    splitting it at the spaces gives exactly these twelve fields. *)
Theorem as_Part2_line_fields (rs : RandomShape.t) :
  RandomShape.as_Part2_line rs
    = join (String space EmptyString) (printed_attributes rs) /\
  string_forall (fun c => negb (c =? newline)%char)
                (RandomShape.as_Part2_line rs) = true /\
  split space (RandomShape.as_Part2_line rs) = printed_attributes rs.
Proof.
  assert (Hall : Forall numeric (printed_attributes rs)).
  { unfold printed_attributes.
    repeat constructor; apply str_int_numeric || apply str_float_numeric. }
  assert (Hline : RandomShape.as_Part2_line rs
                  = join (String space EmptyString) (printed_attributes rs)).
  { unfold RandomShape.as_Part2_line. rewrite str_is_join.
    apply (replace_join_numeric _ Hall). }
  split; [exact Hline |]. split; [| apply split_as_Part2_line].
  rewrite Hline. unfold printed_attributes in *.
  assert (Hnum : forall p, numeric p ->
             string_forall (fun c => negb (c =? newline)%char) p = true).
  { intros p. apply string_forall_impl. intros ch Hch.
    destruct (num_char_plain ch Hch) as (_ & Hnl & _). rewrite Hnl.
    reflexivity. }
  repeat match goal with
         | H : Forall _ (_ :: _) |- _ => inversion H; subst; clear H
         end.
  cbn [join]. repeat rewrite string_forall_app.
  repeat match goal with
         | H : numeric _ |- _ => rewrite (Hnum _ H); clear H
         end.
  reflexivity.
Qed.

Lemma str_no_newline (v : pyval) :
  string_forall (fun c => negb (c =? newline)%char) (str v) = true.
Proof.
  apply (string_forall_impl num_char).
  - intros ch Hch. destruct (num_char_plain ch Hch) as (_ & Hnl & _).
    rewrite Hnl. reflexivity.
  - destruct v; [apply str_int_numeric | apply str_float_numeric].
Qed.

Lemma str_mul_no_newline (n : Z) :
  string_forall (fun c => negb (c =? newline)%char) (str_mul "   " n) = true.
Proof.
  unfold str_mul. induction (Z.to_nat n) as [| k IH]; [reflexivity |].
  simpl. exact IH.
Qed.

(** X14. Every drawn fragment is a single line: whatever the shape tuple
    holds and whatever the indentation level, the text of draw contains no
    newline. *)
Theorem draw_is_single_line (sh : Shape) (indent_level : Z) :
  string_forall (fun c => negb (c =? newline)%char) (draw sh indent_level)
    = true.
Proof.
  destruct sh as [f | f | f];
    unfold draw, CircleShape.draw, RectangleShape.draw, EllipseShape.draw,
      fill_attrs;
    repeat rewrite string_forall_app;
    repeat rewrite str_no_newline;
    rewrite str_mul_no_newline; reflexivity.
Qed.

(** * Further properties of the table *)

Lemma select_numbered_rows (shapes : list RandomShape.t) (i : Z) :
  map_result
    (fun r => map_result
                (fun n => cell_under (TableGen.headers ++ ["CNT"])%list n r)
                ("CNT" :: TableGen.headers))
    (number_rows i (map (pad_row 12) (map printed_attributes shapes)))
  = Ok (table_rows i shapes).
Proof.
  revert i. induction shapes as [| rs rest IH]; intros i; [reflexivity |].
  cbn [map number_rows map_result table_rows].
  rewrite IH. reflexivity.
Qed.

Lemma widest_line_is_twelve (shapes : list RandomShape.t) :
  shapes <> [] ->
  fold_right Nat.max O
    (map (@length string) (map printed_attributes shapes)) = 12%nat.
Proof.
  induction shapes as [| rs rest IH]; [contradiction |]. intros _.
  destruct rest as [| rs' rest]; [reflexivity |].
  cbn [map fold_right] in *. rewrite IH by discriminate. reflexivity.
Qed.

(** X15. For the lines of any list of sampled shapes gen_df returns a
    frame, never an error: its columns are CNT followed by the twelve
    headers, it has one row per shape in the order of the lines, and each
    row holds the row number, counted from 0, followed by the twelve
    printed attributes of the shape in the order the line carries them. An
    empty list of lines gives the frame with no rows. *)
Theorem gen_df_rows (shapes : list RandomShape.t) :
  TableGen.gen_df (map RandomShape.as_Part2_line shapes)
    = Ok {| columns := "CNT" :: TableGen.headers;
            rows := table_rows 0 shapes |} /\
  length (table_rows 0 shapes) = length shapes.
Proof.
  split.
  - unfold TableGen.gen_df. rewrite map_map.
    rewrite (map_ext _ printed_attributes)
      by (intros rs; apply split_as_Part2_line).
    unfold pd_DataFrame.
    destruct shapes as [| rs rest]; [reflexivity |].
    rewrite widest_line_is_twelve by discriminate.
    cbn [map]. change ((12 =? length TableGen.headers)%nat) with true.
    cbn iota. cbn [and_then].
    unfold select_columns, add_index_column. cbn [columns rows].
    pose proof (select_numbered_rows (rs :: rest) 0) as Hrows.
    cbn [map] in Hrows. rewrite Hrows. reflexivity.
  - generalize 0. induction shapes as [| rs rest IH]; intros i;
      [reflexivity |].
    simpl. rewrite IH. reflexivity.
Qed.

(** * The files the drivers write *)


Lemma bind_ok {S A B : Type} (m : M S A) (k : A -> M S B) (s s1 : S) (a : A) :
  m s = (Ok a, s1) -> bind m k s = k a s1.
Proof.
  intros H. unfold bind. rewrite H. reflexivity.
Qed.

Lemma files_with_file_same (f c : string) (w : world) :
  files (with_file f c w) f = Some c.
Proof.
  simpl. rewrite String.eqb_refl. reflexivity.
Qed.

Lemma files_with_file_other (f g c : string) (w : world) :
  g <> f -> files (with_file f c w) g = files w g.
Proof.
  intros Hneq. simpl. destruct (String.eqb_spec g f); [contradiction | reflexivity].
Qed.




Lemma file_write_appended (f text : string) (w : world) :
  (exists c, files w f = Some c) ->
  exists w', file_write f text w = (Ok tt, w') /\ appended f text w w' /\
             source w' = source w.
Proof.
  intros (c & Hc). unfold file_write. rewrite Hc.
  eexists. split; [reflexivity |]. split; [| reflexivity]. split.
  - exists c. split; [exact Hc | apply files_with_file_same].
  - intros g Hg. apply files_with_file_other. exact Hg.
Qed.

Lemma write_html_line_appended (f line : string) (indent_level : Z) (w : world) :
  (exists c, files w f = Some c) ->
  exists w',
    HtmlComponent.write_html_line f line indent_level w = (Ok tt, w') /\
    appended f (str_mul "   " indent_level ++ line ++ eol) w w' /\
    source w' = source w.
Proof.
  apply file_write_appended.
Qed.


















(** * rand_dict and the random card *)

Lemma nth_error_list_set {A : Type} (l : list A) (j i : nat) (v : A) :
  (j < length l)%nat ->
  nth_error (list_set l j v) i
    = if (i =? j)%nat then Some v else nth_error l i.
Proof.
  revert j i. induction l as [| a rest IH]; intros j i Hj; [simpl in Hj; lia |].
  destruct j as [| j], i as [| i]; simpl; try reflexivity.
  apply IH. simpl in Hj. lia.
Qed.

Lemma list_set_length {A : Type} (l : list A) (j : nat) (v : A) :
  length (list_set l j v) = length l.
Proof.
  revert j. induction l as [| a rest IH]; intros j; [reflexivity |].
  destruct j; simpl; [reflexivity | rewrite IH; reflexivity].
Qed.

Lemma getitem_nth {A : Type} (l : list A) (i : Z) :
  0 <= i < Z.of_nat (length l) ->
  exists a, getitem l i = Ok a /\ nth_error l (Z.to_nat i) = Some a.
Proof.
  intros Hi. unfold getitem.
  destruct (Z.ltb_spec i 0); [lia |].
  destruct (Z.leb_spec 0 i); [| lia].
  destruct (Z.ltb_spec i (Z.of_nat (length l))); [| lia].
  simpl andb.
  destruct (nth_error l (Z.to_nat i)) as [a |] eqn:Hnth.
  - exists a. split; reflexivity.
  - apply nth_error_None in Hnth. lia.
Qed.

(** The picks of the pool loop are items of the live part of the pool, and
    they are pairwise different when the live items are. *)
Lemma sample_loop_spec {A : Type} (todo : nat) :
  forall (pool : list A) (live : nat) (s : random.state),
    (todo <= live <= length pool)%nat ->
    exists l s',
      sample_loop pool (Z.of_nat live) todo s = (Ok l, s') /\
      length l = todo /\
      (forall x, In x l ->
                 exists i, (i < live)%nat /\ nth_error pool i = Some x) /\
      (distinct_upto pool live -> NoDup l).
Proof.
  induction todo as [| t IH]; intros pool live s Hb.
  - exists [], s. split; [reflexivity |]. split; [reflexivity |].
    split; [intros x [] | intros _; constructor].
  - destruct live as [| m]; [lia |].
    set (j := random.raw s (random.pos s) mod Z.of_nat (S m)).
    assert (Hj : 0 <= j < Z.of_nat (S m)) by (apply Z.mod_pos_bound; lia).
    destruct (getitem_nth pool j ltac:(lia)) as (x & Gx & Nx).
    destruct (getitem_nth pool (Z.of_nat (S m) - 1) ltac:(lia))
      as (y & Gy & Ny).
    replace (Z.to_nat (Z.of_nat (S m) - 1)) with m in Ny by lia.
    assert (Hjn : (Z.to_nat j < S m)%nat) by lia.
    destruct (IH (list_set pool (Z.to_nat j) y) m (random.advance s))
      as (l & s' & El & Hlen & Hin & Hnd).
    { rewrite list_set_length. lia. }
    exists (x :: l), s'.
    assert (Hset : forall i,
               nth_error (list_set pool (Z.to_nat j) y) i
               = if (i =? Z.to_nat j)%nat then Some y else nth_error pool i).
    { intros i. apply nth_error_list_set. lia. }
    split; [| split; [simpl; rewrite Hlen; reflexivity | split]].
    + cbn [sample_loop].
      unfold bind at 1. unfold random._randbelow, random.next, bind at 1, ret.
      fold j. unfold bind at 1, lift. rewrite Gx.
      unfold bind at 1. rewrite Gy.
      replace (Z.of_nat (S m) - 1) with (Z.of_nat m) by lia.
      unfold bind. rewrite El. reflexivity.
    + intros x' [<- | Hx'].
      * exists (Z.to_nat j). split; assumption.
      * destruct (Hin x' Hx') as (i & Hi & Hnth).
        rewrite Hset in Hnth.
        destruct (Nat.eqb_spec i (Z.to_nat j)).
        -- exists m. split; [lia |]. rewrite Ny. exact Hnth.
        -- exists i. split; [lia | exact Hnth].
    + intros Hdist. constructor.
      * intros Hx. destruct (Hin x Hx) as (i & Hi & Hnth).
        rewrite Hset in Hnth.
        destruct (Nat.eqb_spec i (Z.to_nat j)) as [-> | Hne].
        -- assert (m = Z.to_nat j)
             by (apply Hdist; [lia | lia | rewrite Ny, Nx; exact Hnth]).
           lia.
        -- apply Hne. apply Hdist; [lia | lia | rewrite Nx; exact Hnth].
      * apply Hnd. intros i1 i2 H1 H2 Heq. rewrite !Hset in Heq.
        destruct (Nat.eqb_spec i1 (Z.to_nat j)) as [-> | Hn1],
                 (Nat.eqb_spec i2 (Z.to_nat j)) as [-> | Hn2].
        -- reflexivity.
        -- assert (m = i2)
             by (apply Hdist; [lia | lia | rewrite Ny; exact Heq]).
           lia.
        -- assert (i1 = m)
             by (apply Hdist; [lia | lia | rewrite Ny; exact Heq]).
           lia.
        -- apply Hdist; [lia | lia | exact Heq].
Qed.

Lemma sample_spec {A : Type} (population : list A) (k : Z) (s : random.state) :
  0 <= k <= Z.of_nat (length population) ->
  exists l s',
    sample population k s = (Ok l, s') /\
    length l = Z.to_nat k /\
    (forall x, In x l -> In x population) /\
    (NoDup population -> NoDup l).
Proof.
  intros Hk. unfold sample.
  destruct (Z.leb_spec 0 k); [| lia].
  destruct (Z.leb_spec k (Z.of_nat (length population))); [| lia].
  simpl andb.
  destruct (sample_loop_spec (Z.to_nat k) population (length population) s)
    as (l & s' & El & Hlen & Hin & Hnd); [lia |].
  exists l, s'. split; [exact El |]. split; [exact Hlen |]. split.
  - intros x Hx. destruct (Hin x Hx) as (i & _ & Hnth).
    eapply nth_error_In. exact Hnth.
  - intros Hpop. apply Hnd. intros i1 i2 H1 H2 Heq.
    apply (proj1 (NoDup_nth_error population) Hpop); assumption.
Qed.

Lemma dict_set_fresh {V : Type} (d : dict string V) (k : string) (v : V) :
  ~ In k (map fst d) -> dict_set d k v = (d ++ [(k, v)])%list.
Proof.
  induction d as [| [k' v'] rest IH]; intros Hk; [reflexivity |].
  simpl in *. destruct (String.eqb_spec k' k) as [-> | Hne]; [tauto |].
  rewrite IH by tauto. reflexivity.
Qed.

(** A comprehension over distinct new keys appends one item per key, in
    the order of the keys. *)
Lemma dict_comprehension_spec {S V : Type} (f : M S V) (Pv : V -> Prop) :
  (forall s, exists v s', f s = (Ok v, s') /\ Pv v) ->
  forall (keys : list string) (acc : dict string V) (s : S),
    NoDup keys ->
    (forall k, In k keys -> ~ In k (map fst acc)) ->
    exists vs s',
      dict_comprehension keys f acc s = (Ok (acc ++ combine keys vs)%list, s') /\
      length vs = length keys /\ Forall Pv vs.
Proof.
  intros Hf keys. induction keys as [| k rest IH]; intros acc s Hnd Hfresh.
  - exists [], s. rewrite app_nil_r. repeat split. constructor.
  - destruct (Hf s) as (v & s1 & Ev & Hv).
    inversion Hnd as [| ? ? Hk Hrest]; subst.
    destruct (IH (dict_set acc k v) s1 Hrest) as (vs & s' & Ed & Hlen & Hall).
    { intros k' Hk'. rewrite dict_set_fresh by (apply Hfresh; left; reflexivity).
      rewrite map_app, in_app_iff. simpl.
      intros [Hin | [<- | []]]; [| contradiction].
      apply (Hfresh k'); [right; exact Hk' | exact Hin]. }
    exists (v :: vs), s'.
    split; [| split; [simpl; rewrite Hlen; reflexivity | constructor; assumption]].
    cbn [dict_comprehension]. rewrite (bind_ok _ _ _ _ _ Ev), Ed.
    rewrite dict_set_fresh by (apply Hfresh; left; reflexivity).
    rewrite <- app_assoc. reflexivity.
Qed.

Lemma randint_spec (a b : Z) (s : random.state) :
  a <= b ->
  exists v, random.randint a b s = (Ok v, random.advance s) /\ a <= v <= b.
Proof.
  intros Hab. eexists. split; [apply randint_ok; exact Hab |].
  pose proof (Z.mod_pos_bound (random.raw s (random.pos s)) (b + 1 - a)
                ltac:(lia)).
  lia.
Qed.

(** What [rand_dict] returns for three distinct keys and a non-empty list
    of values. *)
Lemma rand_dict_of_spec {V : Type} (keys : list string) (values : list V)
    (s : random.state) :
  length keys = 3%nat -> NoDup keys -> values <> [] ->
  exists d s',
    GenRandom.rand_dict_of keys values s = (Ok d, s') /\
    (1 <= length d <= 3)%nat /\
    NoDup (map fst d) /\
    Forall (fun item => In (fst item) keys /\ In (snd item) values) d.
Proof.
  intros Hlen Hnd Hvalues. unfold GenRandom.rand_dict_of.
  destruct (randint_spec 1 3 s ltac:(lia)) as (k & Ek & Hk).
  destruct (sample_spec keys k (random.advance s) ltac:(lia))
    as (l & s1 & El & Hl & Hincl & Hlnd).
  assert (Hchoice : forall s0, exists v s',
             random.choice values s0 = (Ok v, s') /\ In v values).
  { intros s0. destruct (choice_ok values s0 Hvalues) as (a & E & I).
    exists a, (random.advance s0). split; assumption. }
  destruct (dict_comprehension_spec (random.choice values)
              (fun v => In v values) Hchoice
              l [] s1 (Hlnd Hnd) (fun _ _ H => H))
    as (vs & s' & Ed & Hvs & Hall).
  exists (combine l vs), s'.
  rewrite (bind_ok _ _ _ _ _ Ek), (bind_ok _ _ _ _ _ El).
  split; [exact Ed |].
  assert (Hfst : map fst (combine l vs) = l).
  { clear - Hvs. revert vs Hvs.
    induction l as [| a l IH]; intros [| v vs] Hvs; simpl in *;
      try reflexivity; try discriminate.
    rewrite IH by lia. reflexivity. }
  split; [rewrite length_combine; lia |].
  split; [rewrite Hfst; exact (Hlnd Hnd) |].
  apply Forall_forall. intros [key v] Hin. simpl. split.
  - apply Hincl. apply (in_combine_l _ _ _ _ Hin).
  - rewrite Forall_forall in Hall. apply Hall.
    apply (in_combine_r _ _ _ _ Hin).
Qed.

(** X19. rand_dict('size') and rand_dict('color') never fail. Each
    returns a dict of one to three items whose keys are pairwise different
    and come from the key list of the type ('c', 'r', 'e' for sizes, 'r',
    'g', 'b' for colours) and whose values come from its value list ('s',
    'm', 'l', respectively 0 to 4). *)
Theorem rand_dict_items (s : random.state) :
  (exists d s',
      GenRandom.rand_dict_size s = (Ok d, s') /\
      (1 <= length d <= 3)%nat /\
      NoDup (map fst d) /\
      Forall (fun item => In (fst item) ["c"; "r"; "e"] /\
                          In (snd item) ["s"; "m"; "l"]) d) /\
  (exists d s',
      GenRandom.rand_dict_color s = (Ok d, s') /\
      (1 <= length d <= 3)%nat /\
      NoDup (map fst d) /\
      Forall (fun item => In (fst item) ["r"; "g"; "b"] /\
                          0 <= snd item <= 4) d).
Proof.
  split.
  - apply rand_dict_of_spec; [reflexivity | | discriminate].
    repeat constructor; simpl; intuition discriminate.
  - destruct (rand_dict_of_spec ["r"; "g"; "b"] [0; 1; 2; 3; 4] s)
      as (d & s' & Ed & Hlen & Hnd & Hall);
      [reflexivity | | discriminate |].
    { repeat constructor; simpl; intuition discriminate. }
    exists d, s'. split; [exact Ed |]. split; [exact Hlen |].
    split; [exact Hnd |].
    eapply Forall_impl; [| exact Hall].
    intros item [Hkey Hval]. split; [exact Hkey |]. simpl in Hval. lia.
Qed.



















(** X23. genArt writes the line the drivers write: for a sampled shape,
    drawing the tuple as_svg rebuilds with genArt at its default
    indentation appends to the file of the canvas exactly the six spaces,
    the element of the shape and a newline, and touches no other file. *)
Theorem genArt_writes_shape_line (canvas : SvgCanvasFile.t)
    (rs : RandomShape.t) (w : world) (c : string)
    (Hfile : files w (SvgCanvasFile.file canvas) = Some c) :
  exists (sh : Shape) (w' : world),
    RandomShape.as_svg_shape rs = Ok sh /\
    SvgCanvasFile.genArt canvas sh draw_default_indent w = (Ok tt, w') /\
    files w' (SvgCanvasFile.file canvas) = Some (c ++ shape_line rs) /\
    (forall g, g <> SvgCanvasFile.file canvas -> files w' g = files w g).
Proof.
  exists (class_of (RandomShape.shape_type rs) (fields_of rs)).
  unfold SvgCanvasFile.genArt. rewrite draw_class_of.
  destruct (write_html_line_appended (SvgCanvasFile.file canvas)
              (str_mul "   " draw_default_indent ++ element_text rs) 0 w
              (ex_intro _ c Hfile)) as (w' & E & [(c' & Hc' & Hc2) Ho] & _).
  exists w'. split; [apply as_svg_shape_ok |]. split; [exact E |].
  split; [| exact Ho].
  rewrite Hfile in Hc'. injection Hc' as <-. exact Hc2.
Qed.

Lemma genArt_writes_shape_line_witness :
  exists (sh : Shape) (w' : world),
    RandomShape.as_svg_shape sampled_rectangle = Ok sh /\
    SvgCanvasFile.genArt (SvgCanvasFile.__init__ "t.html" 200 100 "white") sh
                         draw_default_indent one_file_world = (Ok tt, w') /\
    files w' "t.html" = Some (shape_line sampled_rectangle).
Proof.
  destruct (genArt_writes_shape_line
              (SvgCanvasFile.__init__ "t.html" 200 100 "white")
              sampled_rectangle one_file_world EmptyString eq_refl)
    as (sh & w' & Hsh & Hgen & Hfile & _).
  exists sh, w'. split; [exact Hsh |]. split; [exact Hgen | exact Hfile].
Defined.
